(** * PostgresStore (langchain/src/vectorstores/postgres.ts)

    A shallow embedding of the Postgres vector store adapter: the
    constructor, [addDocuments], [addVectors],
    [similaritySearchVectorWithScore] and the three static helpers.

    The two collaborators the class talks to (the [pg] client and the
    embedding provider) are oracles: their answer to a call may depend on
    everything that was sent before.  Every call is appended to a trace, so
    that "no round-trip", "one write per chunk" and "in input order" are
    statements about that trace.  A rejected promise or a thrown value is
    the [Throw] result; [await] is sequencing. *)

From Stdlib Require Import String Ascii List ZArith Arith Lia Bool.
From Stdlib Require Import Sorted DecimalString.
From Equations Require Import Equations.
Import ListNotations.

Local Open Scope list_scope.
Local Open Scope string_scope.

(** ** JavaScript values the adapter handles *)

(** [number]: the adapter never computes with the entries of an embedding,
    with a similarity or with the row limit [k]; it renders them
    ([toString]) and hands them on.  They stay abstract, with the rendering
    as the one operation. *)
Class JsNumber (number : Type) := toString : number -> string.

(** The sample numbers are integers.  Below 10^21 in magnitude they print
    in decimal, as JavaScript prints them; the samples stay far below. *)
Definition Z_toString (z : Z) : string := NilZero.string_of_int (Z.to_int z).

#[export] Instance Z_JsNumber : JsNumber Z := Z_toString.

(** [object]: an opaque key/value mapping (the metadata of a document). *)
Definition object : Type := list (string * string).

Definition newline : string := String (ascii_of_nat 10) EmptyString.

(** A template literal, line by line. *)
Definition template (lines : list string) : string := String.concat newline lines.

(** [s.replace(/\.\.\./g, "")]: every run of three dots is removed, scanning
    from the left. *)
Fixpoint remove_ellipsis (s : string) : string :=
  match s with
  | String "." (String "." (String "." rest)) => remove_ellipsis rest
  | String c rest => String c (remove_ellipsis rest)
  | EmptyString => EmptyString
  end.

(** [s] has three dots in a row somewhere. *)
Definition contains_ellipsis (s : string) : Prop :=
  exists before after, s = before ++ "..." ++ after.

(** Thrown values.  [Rejected] is whatever a collaborator threw, known by
    its string form; [TypeError] is the engine's own (a property read on
    [undefined]); [Error] is [new Error(message)]. *)
Inductive exn : Type :=
| TypeError (message : string)
| Error (message : string)
| Rejected (reason : string).

(** [Error.prototype.toString] for an error with a name: the name alone
    when the message is empty, [name: message] otherwise. *)
Definition error_toString (name message : string) : string :=
  match message with
  | EmptyString => name
  | _ => name ++ ": " ++ message
  end.

(** [`${error}`] *)
Definition exn_toString (e : exn) : string :=
  match e with
  | TypeError m => error_toString "TypeError" m
  | Error m => error_toString "Error" m
  | Rejected r => r
  end.

Inductive result (A : Type) : Type :=
| Ok (a : A)
| Throw (e : exn).
Arguments Ok {A} a.
Arguments Throw {A} e.

(** [array.map((x, idx) => f(x, idx))] where [f] may throw: the first
    throwing index aborts the map. *)
Fixpoint map_idx {A B : Type} (f : A -> nat -> result B) (idx : nat) (l : list A)
  : result (list B) :=
  match l with
  | [] => Ok []
  | x :: l' =>
      match f x idx with
      | Throw e => Throw e
      | Ok y =>
          match map_idx f (S idx) l' with
          | Throw e => Throw e
          | Ok ys => Ok (y :: ys)
          end
      end
  end.

(** [array.slice(start, end)] for [0 <= start <= end]. *)
Definition slice {A : Type} (l : list A) (start stop : nat) : list A :=
  firstn (stop - start) (skipn start l).

Section PostgresStore.

Context {number : Type} `{JsNumber number}.

(** ** Data model *)

(** Modelled from the spec: the [Document] class, declared in
    ../document.js and not part of this file.  The spec's Document is a
    text content with a metadata mapping (and an optional identity, which
    this file neither reads nor sets); the fields are named as the adapter
    names them. *)
Record Document : Type := mkDocument {
  pageContent : string;
  metadata : object
}.

(** [new Document({ pageContent, metadata })].  In [fromTexts] the metadata
    can be [undefined] (an index past the end of [metadatas]); it is taken
    as the empty object then. *)
Definition new_Document (content : string) (meta : option object) : Document :=
  {| pageContent := content;
     metadata := match meta with Some m => m | None => [] end |}.

Record SearchEmbeddingsResponse : Type := mkResponse {
  id : Z;
  content : string;
  resp_metadata : object;
  similarity : number
}.

(** The object literal built for each vector in [addVectors]. *)
Record Row : Type := mkRow {
  row_content : string;
  row_embedding : list number;
  row_metadata : object
}.

(** ** The collaborators *)

(** The values array of [client.query(text, values)]. *)
Inductive param : Type :=
| PString (s : string)
| PNumber (n : number)
| PRows (chunk : list Row).

Inductive event : Type :=
| EvQuery (text : string) (values : list param)
| EvEmbed (texts : list string).

(** Calls in the order they were made. *)
Definition trace : Type := list event.

Record QueryResult : Type := mkQueryResult { rows : list SearchEmbeddingsResponse }.

(** [pg.Client]: the answer to a statement, given what was sent so far. *)
Record Client : Type := mkClient {
  respond : trace -> string -> list param -> result QueryResult
}.

(** [Embeddings]: the answer to [embedDocuments(texts)]. *)
Record Embeddings : Type := mkEmbeddings {
  embed : trace -> list string -> result (list (list number))
}.

(** ** Effects: a trace and an exception *)

Definition M (A : Type) : Type := trace -> result A * trace.

Definition ret {A : Type} (a : A) : M A := fun tr => (Ok a, tr).

Definition throw {A : Type} (e : exn) : M A := fun tr => (Throw e, tr).

Definition bind {A B : Type} (m : M A) (k : A -> M B) : M B :=
  fun tr =>
    match m tr with
    | (Ok a, tr') => k a tr'
    | (Throw e, tr') => (Throw e, tr')
    end.

(** [try { body } catch (error) { handler }] *)
Definition try_catch {A : Type} (body : M A) (handler : exn -> M A) : M A :=
  fun tr =>
    match body tr with
    | (Ok a, tr') => (Ok a, tr')
    | (Throw e, tr') => handler e tr'
    end.

Definition lift {A : Type} (r : result A) : M A := fun tr => (r, tr).

Notation "x <- m ;; k" := (bind m (fun x => k))
  (at level 100, m at next level, right associativity).

(** [await client.query(text, values)] *)
Definition Client_query (c : Client) (text : string) (values : list param)
  : M QueryResult :=
  fun tr => (respond c tr text values, (tr ++ [EvQuery text values])%list).

(** [await embeddings.embedDocuments(texts)] *)
Definition embedDocuments (e : Embeddings) (texts : list string)
  : M (list (list number)) :=
  fun tr => (embed e tr texts, (tr ++ [EvEmbed texts])%list).

(** ** The class *)

Record PostgresLibArgs : Type := mkArgs {
  args_client : Client;
  args_tableName : option string
}.

Record PostgresStore : Type := mkStore {
  embeddings : Embeddings;
  client : Client;
  tableName : string
}.

(** [args.tableName || "documents"]: [undefined] and the empty string are
    both falsy. *)
Definition tableName_or_default (t : option string) : string :=
  match t with
  | Some EmptyString => "documents"
  | Some s => s
  | None => "documents"
  end.

Definition constructor (e : Embeddings) (args : PostgresLibArgs) : PostgresStore :=
  {| embeddings := e;
     client := args_client args;
     tableName := tableName_or_default (args_tableName args) |}.

Definition chunkSize : nat := 200.

Definition merge_query : string :=
  template
    [ "";
      "        MERGE INTO $1 d";
      "        USING (";
      "          SELECT $2::text as content,";
      "                $3::jsonb as metadata,";
      "                $4::vector(1536) as embedding";
      "        ) AS v(content, metadata, embedding)";
      "        ON (d.content = v.content AND d.metadata = v.metadata)";
      "        WHEN MATCHED THEN";
      "          UPDATE SET embedding = v.embedding";
      "        WHEN NOT MATCHED THEN";
      "          INSERT (content, metadata, embedding) VALUES (v.content, v.metadata, v.embedding)";
      "      " ].

(** [documents[idx].pageContent] and [documents[idx].metadata]: reading a
    property of [undefined] throws. *)
Definition undefined_pageContent : exn :=
  TypeError "Cannot read properties of undefined (reading 'pageContent')".

Definition make_row (documents : list Document) (embedding : list number) (idx : nat)
  : result Row :=
  match nth_error documents idx with
  | Some d =>
      Ok {| row_content := pageContent d;
            row_embedding := embedding;
            row_metadata := metadata d |}
  | None => Throw undefined_pageContent
  end.

(** [vectors.map((embedding, idx) => ({ ... }))] *)
Definition make_rows (vectors : list (list number)) (documents : list Document)
  : result (list Row) :=
  map_idx (make_row documents) 0 vectors.

(** One merge statement for the chunk starting at [i]. *)
Definition write_chunk (self : PostgresStore) (rows : list Row) (i : nat)
  : M QueryResult :=
  let chunk := slice rows i (i + chunkSize) in
  Client_query (client self) merge_query [PString (tableName self); PRows chunk].

(** [for (let i = 0; i < rows.length; i += chunkSize) { ... }] *)
Equations? write_loop (self : PostgresStore) (rows : list Row) (i : nat)
  : M unit by wf (length rows - i) lt :=
  write_loop self rows i with lt_dec i (length rows) => {
    | left _ => _ <- write_chunk self rows i ;; write_loop self rows (i + chunkSize)
    | right _ => ret tt }.
Proof. unfold chunkSize. lia. Qed.

Definition addVectors (self : PostgresStore)
    (vectors : list (list number)) (documents : list Document) : M unit :=
  rows <- lift (make_rows vectors documents) ;;
  try_catch (write_loop self rows 0) (fun error => ret tt).

Definition addDocuments (self : PostgresStore) (documents : list Document) : M unit :=
  let texts := map pageContent documents in
  vectors <- embedDocuments (embeddings self) texts ;;
  addVectors self vectors documents.

(** [query.toString().replace(/\.\.\./g, "")] *)
Definition qEmbeddingsStr (query : list number) : string :=
  remove_ellipsis (String.concat "," (map toString query)).

(** The statement text of the search; [k] is a number like any other and
    goes into the text as [`${k}`] renders it. *)
Definition similaryQuery (self : PostgresStore) (query : list number) (k : number)
  : string :=
  template
    [ "";
      "      SELECT *,";
      "      id,";
      "      content,";
      "      metadata,";
      "      1 - (documents.embedding <=> '[" ++ qEmbeddingsStr query ++ "]') as similarity";
      "      FROM " ++ tableName self;
      "      LIMIT " ++ toString k;
      "    " ].

(** The callback of [searches.map]. *)
Definition to_result (resp : SearchEmbeddingsResponse) : Document * number :=
  (new_Document (content resp) (Some (resp_metadata resp)), similarity resp).

Definition similaritySearchVectorWithScore (self : PostgresStore)
    (query : list number) (k : number) : M (list (Document * number)) :=
  try_catch
    (res <- Client_query (client self) (similaryQuery self query k) (map PNumber query) ;;
     let searches := rows res in
     ret (map to_result searches))
    (fun error =>
       throw (Error ("Error searching for documents: " ++ exn_toString error))).

Definition fromExistingIndex (e : Embeddings) (dbConfig : PostgresLibArgs)
  : M PostgresStore :=
  let instance := constructor e dbConfig in
  ret instance.

Definition fromDocuments (docs : list Document) (e : Embeddings)
    (dbConfig : PostgresLibArgs) : M PostgresStore :=
  let instance := constructor e dbConfig in
  _ <- addDocuments instance docs ;;
  ret instance.

(** [metadatas: object[] | object] *)
Inductive metadatas_arg : Type :=
| MetaArray (ms : list object)
| MetaShared (m : object).

(** The loop of [fromTexts], one document per text. *)
Fixpoint fromTexts_docs (texts : list string) (metadatas : metadatas_arg) (i : nat)
  : list Document :=
  match texts with
  | [] => []
  | text :: texts' =>
      let meta :=
        match metadatas with
        | MetaArray ms => nth_error ms i
        | MetaShared m => Some m
        end in
      new_Document text meta :: fromTexts_docs texts' metadatas (S i)
  end.

Definition fromTexts (texts : list string) (metadatas : metadatas_arg)
    (e : Embeddings) (dbConfig : PostgresLibArgs) : M PostgresStore :=
  fromDocuments (fromTexts_docs texts metadatas 0) e dbConfig.

(** ** The write loop, chunk by chunk *)

(** The statement the loop sends for one chunk. *)
Definition merge_event (self : PostgresStore) (chunk : list Row) : event :=
  EvQuery merge_query [PString (tableName self); PRows chunk].

(** The loop counter's values: [count] offsets from [i], [chunkSize] apart. *)
Fixpoint offsets (count i : nat) : list nat :=
  match count with
  | 0 => []
  | S count' => i :: offsets count' (i + chunkSize)
  end.

(** ceil(n / chunkSize) *)
Definition chunk_count (n : nat) : nat := (n + (chunkSize - 1)) / chunkSize.

(** The loop unrolled over a list of offsets. *)
Fixpoint submit (self : PostgresStore) (rows : list Row) (offs : list nat) : M unit :=
  match offs with
  | [] => ret tt
  | i :: offs' => _ <- write_chunk self rows i ;; submit self rows offs'
  end.

(** The chunks of [rows], as the loop cuts them. *)
Definition chunks_of (rows : list Row) : list (list Row) :=
  map (fun i => slice rows i (i + chunkSize)) (offsets (chunk_count (length rows)) 0).

(** A client that never rejects a statement. *)
Definition accepts_all (c : Client) : Prop :=
  forall tr text values, exists res, respond c tr text values = Ok res.

(** The rows carried by the statements of a trace. *)
Definition param_rows (p : param) : list Row :=
  match p with PRows chunk => chunk | _ => [] end.

Definition event_rows (ev : event) : list Row :=
  match ev with
  | EvQuery _ values => flat_map param_rows values
  | EvEmbed _ => []
  end.

Definition written_rows (tr : trace) : list Row := flat_map event_rows tr.

(** [vectors] and [documents] paired index by index, as far as both go. *)
Fixpoint pair_rows (vectors : list (list number)) (documents : list Document) : list Row :=
  match vectors, documents with
  | v :: vectors', d :: documents' =>
      {| row_content := pageContent d; row_embedding := v; row_metadata := metadata d |}
      :: pair_rows vectors' documents'
  | _, _ => []
  end.

End PostgresStore.

(** Outside the section the types are generic in [number]. *)
Arguments SearchEmbeddingsResponse number : clear implicits.
Arguments Row number : clear implicits.
Arguments param number : clear implicits.
Arguments event number : clear implicits.
Arguments trace number : clear implicits.
Arguments QueryResult number : clear implicits.
Arguments Client number : clear implicits.
Arguments Embeddings number : clear implicits.
Arguments M number A : clear implicits.
Arguments PostgresLibArgs number : clear implicits.
Arguments PostgresStore number : clear implicits.

(** * Sample collaborators

    Concrete clients, providers and inputs, with integers as numbers. *)

(** A store that accepts every statement and has no rows to return. *)
Definition accepting_client : Client Z :=
  {| respond := fun _ _ _ => Ok {| rows := [] |} |}.

(** A store that rejects every statement. *)
Definition rejecting_client : Client Z :=
  {| respond := fun _ _ _ => Throw (Rejected "connection terminated") |}.

(** A store that answers a read with the rows of [table], as they lie. *)
Definition table_client (table : list (SearchEmbeddingsResponse Z)) : Client Z :=
  {| respond := fun _ _ _ => Ok {| rows := table |} |}.

(** A provider that returns one vector per text. *)
Definition unit_embeddings : Embeddings Z :=
  {| embed := fun _ texts => Ok (map (fun _ => [0%Z; 1%Z]) texts) |}.

(** A provider that returns [vectors], whatever it is asked. *)
Definition fixed_embeddings (vectors : list (list Z)) : Embeddings Z :=
  {| embed := fun _ _ => Ok vectors |}.

(** A store object built without a table name. *)
Definition sample_store (c : Client Z) (e : Embeddings Z) : PostgresStore Z :=
  constructor e {| args_client := c; args_tableName := None |}.

(** [n] documents, numbered from 0. *)
Definition sample_documents (n : nat) : list Document :=
  map (fun i => {| pageContent := Z_toString (Z.of_nat i); metadata := [] |}) (seq 0 n).

Definition sample_vectors (n : nat) : list (list Z) :=
  map (fun i => [Z.of_nat i]) (seq 0 n).

(** Three stored rows: the one with the lowest similarity first, then two
    with equal similarity, the higher id before the lower. *)
Definition heap_table : list (SearchEmbeddingsResponse Z) :=
  [ {| id := 3; content := "c"; resp_metadata := []; similarity := 0%Z |};
    {| id := 2; content := "b"; resp_metadata := []; similarity := 1%Z |};
    {| id := 1; content := "a"; resp_metadata := []; similarity := 1%Z |} ].

(** The same rows as a ranked read would return them. *)
Definition ranked_table : list (SearchEmbeddingsResponse Z) :=
  [ {| id := 1; content := "a"; resp_metadata := []; similarity := 1%Z |};
    {| id := 2; content := "b"; resp_metadata := []; similarity := 1%Z |};
    {| id := 3; content := "c"; resp_metadata := []; similarity := 0%Z |} ].

(** Descending similarity, on results. *)
Definition descending (x y : Document * Z) : Prop := (snd y <= snd x)%Z.

(** The number of rows in each statement of a trace. *)
Definition write_sizes (tr : trace Z) : list nat :=
  map (fun ev => length (event_rows ev)) tr.

(** A store that rejects the second statement it is sent, and no other. *)
Definition second_rejected_client : Client Z :=
  {| respond := fun tr _ _ =>
       if Nat.eqb (length tr) 1
       then Throw (Rejected "statement timeout")
       else Ok {| rows := [] |} |}.

(** A provider that fails. *)
Definition failing_embeddings : Embeddings Z :=
  {| embed := fun _ _ => Throw (Rejected "rate limited") |}.

(** A store whose every statement fails with [cause]. *)
Definition throwing_client (cause : exn) : Client Z :=
  {| respond := fun _ _ _ => Throw cause |}.

(** Construction arguments that name the table. *)
Definition named_args (name : string) : PostgresLibArgs Z :=
  {| args_client := accepting_client; args_tableName := Some name |}.

(** * Properties *)

Section Properties.

Context {number : Type} `{JsNumber number}.

Lemma chunk_count_step (n i : nat) :
  i < n -> chunk_count (n - i) = S (chunk_count (n - (i + chunkSize))).
Proof.
  unfold chunk_count, chunkSize. intros Hlt. cbn [Nat.sub].
  destruct (le_lt_dec (i + 200) n) as [Hle | Hgt].
  - replace (n - i + 199) with ((n - (i + 200) + 199) + 1 * 200) by lia.
    rewrite Nat.div_add by lia. lia.
  - replace (n - (i + 200)) with 0 by lia.
    rewrite (Nat.div_small (0 + 199)) by lia.
    replace (n - i + 199) with ((n - i - 1) + 1 * 200) by lia.
    rewrite Nat.div_add by lia. rewrite Nat.div_small by lia. reflexivity.
Qed.

Lemma chunk_count_zero (n i : nat) : n <= i -> chunk_count (n - i) = 0.
Proof.
  intros Hle. replace (n - i) with 0 by lia. reflexivity.
Qed.

Lemma write_loop_body (self : PostgresStore number) (rows : list (Row number)) (i : nat) :
  write_loop self rows i =
  if lt_dec i (length rows)
  then bind (write_chunk self rows i) (fun _ => write_loop self rows (i + chunkSize))
  else ret tt.
Proof.
  rewrite write_loop_equation_1.
  destruct (lt_dec i (length rows)); reflexivity.
Qed.

(** The loop sends the chunks at offsets [i], [i + 200], ... below
    [rows.length], and it terminates: the unrolled form is a total function. *)
Lemma write_loop_submit (self : PostgresStore number) (rows : list (Row number)) (i : nat) (tr : trace number) :
  write_loop self rows i tr =
  submit self rows (offsets (chunk_count (length rows - i)) i) tr.
Proof.
  remember (length rows - i) as m eqn:Hm.
  revert i tr Hm.
  induction m as [m IH] using lt_wf_ind. intros i tr Hm.
  rewrite write_loop_body.
  destruct (lt_dec i (length rows)) as [Hlt | Hge].
  - subst m. rewrite chunk_count_step by assumption. cbn [offsets submit].
    unfold bind. destruct (write_chunk self rows i tr) as [[res | e] tr1]; [| reflexivity].
    apply (IH (length rows - (i + chunkSize))); [unfold chunkSize; lia | reflexivity].
  - subst m. rewrite chunk_count_zero by lia. reflexivity.
Qed.

Lemma submit_accepts (self : PostgresStore number) (rows : list (Row number)) (offs : list nat) (tr : trace number) :
  accepts_all (client self) ->
  submit self rows offs tr =
  (Ok tt, (tr ++ map (fun i => merge_event self (slice rows i (i + chunkSize))) offs)%list).
Proof.
  intros Hacc. revert tr.
  induction offs as [| i offs IH]; intros tr; cbn [submit map].
  - rewrite app_nil_r. reflexivity.
  - unfold bind, write_chunk, Client_query.
    destruct (Hacc tr merge_query
                [PString (tableName self); PRows (slice rows i (i + chunkSize))])
      as [res Hres].
    rewrite Hres, IH, <- app_assoc. reflexivity.
Qed.

(** Whatever the client answers, the statements sent are the first [j]
    chunks, in order; the loop went through when all of them were sent. *)
Lemma submit_prefix (self : PostgresStore number) (rows : list (Row number)) (offs : list nat) (tr : trace number) :
  exists j,
    j <= length offs /\
    snd (submit self rows offs tr) =
    (tr ++ map (fun i => merge_event self (slice rows i (i + chunkSize))) (firstn j offs))%list.
Proof.
  revert tr.
  induction offs as [| i offs IH]; intros tr; cbn [submit].
  - exists 0. cbn. rewrite app_nil_r. split; [lia | reflexivity].
  - unfold bind, write_chunk, Client_query.
    destruct (respond (client self) tr merge_query
                [PString (tableName self); PRows (slice rows i (i + chunkSize))])
      as [res | e].
    + destruct (IH (tr ++ [merge_event self (slice rows i (i + chunkSize))])%list)
        as [j [Hj Htr]].
      exists (S j). split; [cbn; lia |].
      unfold merge_event in *. rewrite Htr. cbn [firstn map].
      rewrite <- app_assoc. reflexivity.
    + exists 1. split; [cbn; lia |]. cbn [firstn map snd]. reflexivity.
Qed.

Lemma length_offsets (count i : nat) : length (offsets count i) = count.
Proof.
  revert i. induction count as [| count IH]; intros i; cbn; [| rewrite IH]; reflexivity.
Qed.

Lemma nth_error_offsets (count i j : nat) :
  j < count -> nth_error (offsets count i) j = Some (i + j * chunkSize).
Proof.
  revert i j. induction count as [| count IH]; intros i j Hj; [lia |].
  destruct j as [| j]; cbn [offsets nth_error].
  - f_equal. lia.
  - rewrite IH by lia. f_equal. cbn [Nat.mul]. lia.
Qed.

Lemma length_slice (rows : list (Row number)) (i : nat) :
  length (slice rows i (i + chunkSize)) = Nat.min chunkSize (length rows - i).
Proof.
  unfold slice. rewrite length_firstn, length_skipn. f_equal. lia.
Qed.

Lemma concat_slices (rows : list (Row number)) (count i : nat) :
  length rows - i <= count * chunkSize ->
  concat (map (fun i => slice rows i (i + chunkSize)) (offsets count i)) = skipn i rows.
Proof.
  revert i. induction count as [| count IH]; intros i Hle; cbn [offsets map concat].
  - symmetry. apply skipn_all2. lia.
  - rewrite IH by (cbn [Nat.mul] in Hle; lia).
    unfold slice. replace (i + chunkSize - i) with chunkSize by lia.
    rewrite Nat.add_comm, <- skipn_skipn. apply firstn_skipn.
Qed.

Lemma chunk_count_covers (n : nat) : n <= chunk_count n * chunkSize.
Proof.
  unfold chunk_count, chunkSize. cbn [Nat.sub].
  pose proof (Nat.div_mod_eq (n + 199) 200) as Hdiv.
  pose proof (Nat.mod_upper_bound (n + 199) 200) as Hmod.
  lia.
Qed.

Lemma length_chunks_of (rows : list (Row number)) :
  length (chunks_of rows) = chunk_count (length rows).
Proof.
  unfold chunks_of. rewrite length_map. apply length_offsets.
Qed.

Lemma concat_chunks_of (rows : list (Row number)) : concat (chunks_of rows) = rows.
Proof.
  unfold chunks_of. rewrite concat_slices; [reflexivity |].
  rewrite Nat.sub_0_r. apply chunk_count_covers.
Qed.

Lemma nth_error_chunks_of (rows : list (Row number)) (j : nat) (chunk : list (Row number)) :
  nth_error (chunks_of rows) j = Some chunk ->
  chunk = slice rows (j * chunkSize) (j * chunkSize + chunkSize).
Proof.
  unfold chunks_of. intros Hnth.
  assert (Hj : j < chunk_count (length rows)).
  { rewrite <- (length_offsets (chunk_count (length rows)) 0), <- (length_map
      (fun i => slice rows i (i + chunkSize))).
    apply nth_error_Some. congruence. }
  rewrite nth_error_map, (nth_error_offsets _ 0 j Hj) in Hnth.
  cbn [option_map Nat.add] in Hnth. injection Hnth as <-. reflexivity.
Qed.

Lemma skipn_nth_error_cons {A : Type} (l : list A) (i : nat) (x : A) :
  nth_error l i = Some x -> skipn i l = x :: skipn (S i) l.
Proof.
  revert i. induction l as [| y l IH]; intros i Hnth.
  - destruct i; discriminate.
  - destruct i as [| i]; cbn in *.
    + congruence.
    + apply IH. assumption.
Qed.

(** With a document under every vector, [vectors.map] pairs them by index. *)
Lemma map_idx_make_row (documents : list Document) (vectors : list (list number)) (idx : nat) :
  length vectors + idx <= length documents ->
  map_idx (make_row documents) idx vectors = Ok (pair_rows vectors (skipn idx documents)).
Proof.
  revert idx. induction vectors as [| v vectors IH]; intros idx Hlen; cbn [map_idx].
  - reflexivity.
  - cbn [length] in Hlen. unfold make_row at 1.
    destruct (nth_error documents idx) as [d |] eqn:Hnth.
    + rewrite IH by lia. rewrite (skipn_nth_error_cons _ _ _ Hnth). reflexivity.
    + apply nth_error_None in Hnth. lia.
Qed.

(** A vector without a document under it: the property read throws. *)
Lemma map_idx_make_row_short (documents : list Document) (vectors : list (list number))
    (idx : nat) :
  idx <= length documents -> length documents < length vectors + idx ->
  map_idx (make_row documents) idx vectors = Throw undefined_pageContent.
Proof.
  revert idx. induction vectors as [| v vectors IH]; intros idx Hidx Hlen; cbn [map_idx].
  - cbn in Hlen. lia.
  - cbn [length] in Hlen. unfold make_row at 1.
    destruct (nth_error documents idx) as [d |] eqn:Hnth; [| reflexivity].
    assert (idx < length documents) by (apply nth_error_Some; congruence).
    rewrite IH by lia. reflexivity.
Qed.

Lemma make_rows_paired (vectors : list (list number)) (documents : list Document) :
  length vectors <= length documents ->
  make_rows vectors documents = Ok (pair_rows vectors documents).
Proof.
  intros Hlen. unfold make_rows. rewrite map_idx_make_row by lia. reflexivity.
Qed.

Lemma make_rows_short (vectors : list (list number)) (documents : list Document) :
  length documents < length vectors ->
  make_rows vectors documents = Throw undefined_pageContent.
Proof.
  intros Hlen. unfold make_rows. apply map_idx_make_row_short; lia.
Qed.

Lemma length_pair_rows (vectors : list (list number)) (documents : list Document) :
  length (pair_rows vectors documents) = Nat.min (length vectors) (length documents).
Proof.
  revert documents. induction vectors as [| v vectors IH]; intros [| d documents]; cbn;
    try reflexivity.
  rewrite IH. reflexivity.
Qed.

Lemma nth_error_pair_rows (vectors : list (list number)) (documents : list Document)
    (i : nat) (v : list number) (d : Document) :
  nth_error vectors i = Some v -> nth_error documents i = Some d ->
  nth_error (pair_rows vectors documents) i =
  Some {| row_content := pageContent d; row_embedding := v; row_metadata := metadata d |}.
Proof.
  revert documents i. induction vectors as [| v' vectors IH]; intros [| d' documents] [| i];
    cbn; try discriminate.
  - congruence.
  - apply IH.
Qed.

Lemma pair_rows_content (vectors : list (list number)) (documents : list Document) :
  map row_content (pair_rows vectors documents) =
  map pageContent (firstn (length vectors) documents).
Proof.
  revert documents. induction vectors as [| v vectors IH]; intros [| d documents]; cbn;
    try reflexivity.
  rewrite IH. reflexivity.
Qed.

Lemma pair_rows_metadata (vectors : list (list number)) (documents : list Document) :
  map row_metadata (pair_rows vectors documents) =
  map metadata (firstn (length vectors) documents).
Proof.
  revert documents. induction vectors as [| v vectors IH]; intros [| d documents]; cbn;
    try reflexivity.
  rewrite IH. reflexivity.
Qed.

Lemma pair_rows_embedding (vectors : list (list number)) (documents : list Document) :
  map row_embedding (pair_rows vectors documents) = firstn (length documents) vectors.
Proof.
  revert documents. induction vectors as [| v vectors IH]; intros [| d documents]; cbn;
    try reflexivity.
  rewrite IH. reflexivity.
Qed.

(** Once the rows are formed, [addVectors] is the loop with its failure
    dropped by the empty [catch]. *)
Lemma addVectors_rows (self : PostgresStore number) (vectors : list (list number))
    (documents : list Document) (rows : list (Row number)) (tr : trace number) :
  make_rows vectors documents = Ok rows ->
  addVectors self vectors documents tr =
  (Ok tt, snd (submit self rows (offsets (chunk_count (length rows)) 0) tr)).
Proof.
  intros Hrows. unfold addVectors, bind, lift, try_catch. rewrite Hrows.
  rewrite write_loop_submit, Nat.sub_0_r.
  destruct (submit self rows (offsets (chunk_count (length rows)) 0) tr) as [[[] | e] tr'];
    reflexivity.
Qed.

Lemma addVectors_throws (self : PostgresStore number) (vectors : list (list number))
    (documents : list Document) (e : exn) (tr : trace number) :
  make_rows vectors documents = Throw e ->
  addVectors self vectors documents tr = (Throw e, tr).
Proof.
  intros Hrows. unfold addVectors, bind, lift. rewrite Hrows. reflexivity.
Qed.

Lemma map_merge_event_chunks (self : PostgresStore number) (rows : list (Row number)) (j : nat) :
  map (fun i => merge_event self (slice rows i (i + chunkSize)))
      (firstn j (offsets (chunk_count (length rows)) 0)) =
  map (merge_event self) (firstn j (chunks_of rows)).
Proof.
  unfold chunks_of. rewrite firstn_map, map_map. reflexivity.
Qed.

Lemma written_rows_merge_events (self : PostgresStore number) (chunks : list (list (Row number))) :
  written_rows (map (merge_event self) chunks) = concat chunks.
Proof.
  unfold written_rows. induction chunks as [| c chunks IH]; cbn; [reflexivity |].
  rewrite app_nil_r. f_equal. exact IH.
Qed.

Lemma append_assoc (a b c : string) : (a ++ b) ++ c = a ++ (b ++ c).
Proof.
  induction a as [| ch a IH]; cbn; [| rewrite IH]; reflexivity.
Qed.

(** ** [similaritySearchVectorWithScore] *)

(** One statement goes to the store on every call. *)
Lemma search_trace (self : PostgresStore number) (query : list number) (k : number)
    (tr : trace number) :
  snd (similaritySearchVectorWithScore self query k tr) =
  (tr ++ [EvQuery (similaryQuery self query k) (map PNumber query)])%list.
Proof.
  unfold similaritySearchVectorWithScore, try_catch, bind, Client_query, ret, throw.
  destruct (respond (client self) tr (similaryQuery self query k) (map PNumber query));
    reflexivity.
Qed.

Lemma search_answered (self : PostgresStore number) (query : list number) (k : number)
    (tr : trace number) (res : QueryResult number) :
  respond (client self) tr (similaryQuery self query k) (map PNumber query) = Ok res ->
  similaritySearchVectorWithScore self query k tr =
  (Ok (map to_result (rows res)),
   (tr ++ [EvQuery (similaryQuery self query k) (map PNumber query)])%list).
Proof.
  intros Hres.
  unfold similaritySearchVectorWithScore, try_catch, bind, Client_query, ret.
  rewrite Hres. reflexivity.
Qed.

Lemma search_rejected (self : PostgresStore number) (query : list number) (k : number)
    (tr : trace number) (e : exn) :
  respond (client self) tr (similaryQuery self query k) (map PNumber query) = Throw e ->
  similaritySearchVectorWithScore self query k tr =
  (Throw (Error ("Error searching for documents: " ++ exn_toString e)),
   (tr ++ [EvQuery (similaryQuery self query k) (map PNumber query)])%list).
Proof.
  intros Hres.
  unfold similaritySearchVectorWithScore, try_catch, bind, Client_query, throw.
  rewrite Hres. reflexivity.
Qed.

Lemma StronglySorted_map_iff {A B : Type} (R : B -> B -> Prop) (f : A -> B) (l : list A) :
  StronglySorted R (map f l) <-> StronglySorted (fun x y => R (f x) (f y)) l.
Proof.
  induction l as [| a l IH]; cbn [map].
  - split; intros _; constructor.
  - split; intros Hs; apply StronglySorted_inv in Hs; destruct Hs as [Hs Hall];
      constructor; try (apply IH; exact Hs).
    + rewrite Forall_map in Hall. exact Hall.
    + rewrite Forall_map. exact Hall.
Qed.

Lemma StronglySorted_nth_error {A : Type} (R : A -> A -> Prop) (l : list A) :
  StronglySorted R l ->
  forall i j a b, i < j -> nth_error l i = Some a -> nth_error l j = Some b -> R a b.
Proof.
  induction 1 as [| x l Hs IH Hall]; intros i j a b Hij Ha Hb.
  - destruct i; discriminate.
  - destruct j as [| j]; [lia |]. cbn in Hb.
    destruct i as [| i]; cbn in Ha.
    + injection Ha as <-. rewrite Forall_forall in Hall.
      apply Hall. eapply nth_error_In. exact Hb.
    + apply (IH i j); [lia | assumption | assumption].
Qed.

(** C1 (as amended): the search hands back one result per row the store
    returned, in the order the store returned them; it neither sorts nor
    breaks ties.  So the results are in descending similarity order exactly
    when the store's rows are, and under any ordering the store keeps
    between its rows (such as ascending id among equal similarities) two
    results stand as their rows stood. *)
Theorem search_keeps_store_order (self : PostgresStore number) (query : list number)
    (k : number) (tr : trace number) (res : QueryResult number) :
  respond (client self) tr (similaryQuery self query k) (map PNumber query) = Ok res ->
  exists results,
    fst (similaritySearchVectorWithScore self query k tr) = Ok results /\
    length results = length (rows res) /\
    (forall i resp, nth_error (rows res) i = Some resp ->
                    nth_error results i = Some (to_result resp)) /\
    (forall ge : number -> number -> Prop,
        StronglySorted (fun x y => ge (snd x) (snd y)) results <->
        StronglySorted (fun a b => ge (similarity a) (similarity b)) (rows res)) /\
    (forall precedes : SearchEmbeddingsResponse number -> SearchEmbeddingsResponse number -> Prop,
        StronglySorted precedes (rows res) ->
        forall i j ri rj, i < j ->
          nth_error (rows res) i = Some ri -> nth_error (rows res) j = Some rj ->
          nth_error results i = Some (to_result ri) /\
          nth_error results j = Some (to_result rj) /\
          precedes ri rj).
Proof.
  intros Hres. exists (map to_result (rows res)).
  rewrite (search_answered _ _ _ _ _ Hres). cbn [fst].
  assert (Hnth : forall i resp, nth_error (rows res) i = Some resp ->
                   nth_error (map to_result (rows res)) i = Some (to_result resp)).
  { intros i resp Hi. rewrite nth_error_map, Hi. reflexivity. }
  repeat split.
  - apply length_map.
  - exact Hnth.
  - intros Hs.
    apply (StronglySorted_map_iff (fun x y => ge (snd x) (snd y)) to_result) in Hs.
    exact Hs.
  - intros Hs.
    apply (StronglySorted_map_iff (fun x y => ge (snd x) (snd y)) to_result).
    exact Hs.
  - apply Hnth. assumption.
  - apply Hnth. assumption.
  - eapply StronglySorted_nth_error; eassumption.
Qed.

(** C4 (as amended): with [k = 0] the search is not short-circuited.  It
    sends exactly one statement to the store, the usual one with
    [LIMIT 0] as its last clause, and returns what the store answers: the
    empty sequence when the store returns no rows.  Numbers being abstract,
    [k = 0] is any limit that [`${k}`] renders as 0, as both zeros of
    JavaScript are. *)
Theorem search_zero_k_queries_once (self : PostgresStore number) (query : list number)
    (k : number) (tr : trace number) :
  toString k = "0" ->
  snd (similaritySearchVectorWithScore self query k tr) =
    (tr ++ [EvQuery (similaryQuery self query k) (map PNumber query)])%list /\
  (exists head, similaryQuery self query k = head ++ "LIMIT 0" ++ newline ++ "    ") /\
  (forall res,
      respond (client self) tr (similaryQuery self query k) (map PNumber query) = Ok res ->
      rows res = [] ->
      fst (similaritySearchVectorWithScore self query k tr) = Ok []).
Proof.
  intros Hzero.
  split; [apply search_trace |]. split.
  - exists (template
              [ "";
                "      SELECT *,";
                "      id,";
                "      content,";
                "      metadata,";
                "      1 - (documents.embedding <=> '[" ++ qEmbeddingsStr query
                  ++ "]') as similarity";
                "      FROM " ++ tableName self;
                "      " ]).
    unfold similaryQuery, template. cbn [String.concat].
    rewrite Hzero.
    repeat rewrite append_assoc. reflexivity.
  - intros res Hres Hrows.
    rewrite (search_answered _ _ _ _ _ Hres), Hrows. reflexivity.
Qed.

(** C6 (as amended): when the query fails, the call throws a plain
    [Error]; there is no error type of the search's own.  Its message is
    "Error searching for documents: " followed by the text of the cause:
    what a collaborator threw as it prints, an error as its name alone when
    its message is empty and as [name: message] otherwise.  The cause
    itself is not carried.  Nothing is returned, in part or in whole. *)
Theorem search_failure_surfaces (self : PostgresStore number) (query : list number)
    (k : number) (tr : trace number) (cause : exn) :
  respond (client self) tr (similaryQuery self query k) (map PNumber query) = Throw cause ->
  fst (similaritySearchVectorWithScore self query k tr) =
    Throw (Error ("Error searching for documents: " ++
                  match cause with
                  | Rejected reason => reason
                  | Error EmptyString => "Error"
                  | Error message => "Error: " ++ message
                  | TypeError EmptyString => "TypeError"
                  | TypeError message => "TypeError: " ++ message
                  end)) /\
  (forall results, fst (similaritySearchVectorWithScore self query k tr) <> Ok results).
Proof.
  intros Hres. rewrite (search_rejected _ _ _ _ _ Hres). cbn [fst].
  split; [| discriminate].
  destruct cause as [[| c message] | [| c message] | reason]; reflexivity.
Qed.

(** C8: each result is the row's similarity with a Document made of the
    row's content and metadata, row for row; the row's id takes no part:
    rows that differ in their ids only give the same results. *)
Theorem search_result_drops_id (self : PostgresStore number) (query : list number)
    (k : number) (tr : trace number) (res : QueryResult number) :
  respond (client self) tr (similaryQuery self query k) (map PNumber query) = Ok res ->
  fst (similaritySearchVectorWithScore self query k tr) =
    Ok (map (fun resp => ({| pageContent := content resp; metadata := resp_metadata resp |},
                          similarity resp))
            (rows res)) /\
  (forall other : list (SearchEmbeddingsResponse number),
      map (fun resp => (content resp, resp_metadata resp, similarity resp)) other =
      map (fun resp => (content resp, resp_metadata resp, similarity resp)) (rows res) ->
      map to_result other = map to_result (rows res)).
Proof.
  intros Hres. rewrite (search_answered _ _ _ _ _ Hres). cbn [fst].
  split; [reflexivity |].
  intros other Hsame.
  pose (rebuild := fun t : string * object * number =>
                     (new_Document (fst (fst t)) (Some (snd (fst t))), snd t)).
  apply (f_equal (map rebuild)) in Hsame.
  rewrite !map_map in Hsame. exact Hsame.
Qed.

(** ** [addVectors] and [addDocuments] *)

Lemma map_merge_event_all (self : PostgresStore number) (rows : list (Row number)) :
  map (fun i => merge_event self (slice rows i (i + chunkSize)))
      (offsets (chunk_count (length rows)) 0) =
  map (merge_event self) (chunks_of rows).
Proof.
  unfold chunks_of. rewrite map_map. reflexivity.
Qed.

(** The statements [addVectors] sends for [rows]: the first [j] chunks. *)
Lemma addVectors_sent (self : PostgresStore number) (vectors : list (list number))
    (documents : list Document) (rows : list (Row number)) (tr : trace number) :
  make_rows vectors documents = Ok rows ->
  exists j,
    j <= length (chunks_of rows) /\
    addVectors self vectors documents tr =
    (Ok tt, (tr ++ map (merge_event self) (firstn j (chunks_of rows)))%list).
Proof.
  intros Hrows. rewrite (addVectors_rows _ _ _ _ _ Hrows).
  destruct (submit_prefix self rows (offsets (chunk_count (length rows)) 0) tr)
    as [j [Hj Htr]].
  exists j. split.
  - rewrite length_chunks_of. rewrite length_offsets in Hj. exact Hj.
  - rewrite Htr, map_merge_event_chunks. reflexivity.
Qed.

Lemma addVectors_accepted (self : PostgresStore number) (vectors : list (list number))
    (documents : list Document) (rows : list (Row number)) (tr : trace number) :
  make_rows vectors documents = Ok rows ->
  accepts_all (client self) ->
  addVectors self vectors documents tr =
  (Ok tt, (tr ++ map (merge_event self) (chunks_of rows))%list).
Proof.
  intros Hrows Hacc. rewrite (addVectors_rows _ _ _ _ _ Hrows).
  rewrite (submit_accepts _ _ _ _ Hacc), map_merge_event_all. reflexivity.
Qed.

Lemma length_chunk (rows : list (Row number)) (j : nat) (chunk : list (Row number)) :
  nth_error (chunks_of rows) j = Some chunk ->
  length chunk = Nat.min 200 (length rows - j * 200).
Proof.
  intros Hnth. rewrite (nth_error_chunks_of _ _ _ Hnth). apply length_slice.
Qed.

(** C5: [n] (document, vector) pairs are cut into chunks of 200, in input
    order: ceil(n / 200) chunks that together are the rows, each of 200 rows
    but for a shorter last one.  The statements sent are these chunks, one
    statement per chunk and each after the answer to the one before; they
    are all sent, ceil(n / 200) writes, when the store accepts them. *)
Theorem addVectors_chunks_of_200 (self : PostgresStore number)
    (vectors : list (list number)) (documents : list Document) (tr : trace number) :
  length vectors = length documents ->
  exists (rows : list (Row number)) (chunks : list (list (Row number))),
    make_rows vectors documents = Ok rows /\
    length rows = length documents /\
    concat chunks = rows /\
    length chunks = (length documents + 199) / 200 /\
    (forall j chunk, nth_error chunks j = Some chunk ->
                     length chunk = Nat.min 200 (length documents - j * 200)) /\
    (exists j, j <= length chunks /\
               snd (addVectors self vectors documents tr) =
               (tr ++ map (merge_event self) (firstn j chunks))%list) /\
    (accepts_all (client self) ->
     addVectors self vectors documents tr =
     (Ok tt, (tr ++ map (merge_event self) chunks)%list)).
Proof.
  intros Hlen.
  assert (Hrows : make_rows vectors documents = Ok (pair_rows vectors documents))
    by (apply make_rows_paired; lia).
  assert (Hn : length (pair_rows vectors documents) = length documents)
    by (rewrite length_pair_rows; lia).
  exists (pair_rows vectors documents), (chunks_of (pair_rows vectors documents)).
  split; [exact Hrows |]. split; [exact Hn |].
  split; [apply concat_chunks_of |].
  split; [rewrite length_chunks_of, Hn; reflexivity |].
  split; [intros j chunk Hnth; rewrite <- Hn; apply length_chunk; exact Hnth |].
  split.
  - destruct (addVectors_sent self _ _ _ tr Hrows) as [j [Hj Hrun]].
    exists j. rewrite Hrun. split; [exact Hj | reflexivity].
  - intros Hacc. apply addVectors_accepted; assumption.
Qed.

(** C10: rows are formed over the vectors: with no more vectors than
    documents there is one row per vector, made of the vector and the
    document at its index, so the documents past the last vector are in no
    row.  The call returns without an error; what it sends is taken from
    these rows, from the first on, and is all of them when the store
    accepts the statements. *)
Theorem addVectors_pairs_by_vector_index (self : PostgresStore number)
    (vectors : list (list number)) (documents : list Document) (tr : trace number) :
  length vectors <= length documents ->
  exists rows : list (Row number),
    make_rows vectors documents = Ok rows /\
    length rows = length vectors /\
    (forall i v, nth_error vectors i = Some v ->
       exists d, nth_error documents i = Some d /\
                 nth_error rows i =
                 Some {| row_content := pageContent d;
                         row_embedding := v;
                         row_metadata := metadata d |}) /\
    fst (addVectors self vectors documents tr) = Ok tt /\
    (exists sent rest,
        snd (addVectors self vectors documents tr) = (tr ++ sent)%list /\
        rows = (written_rows sent ++ rest)%list) /\
    (accepts_all (client self) ->
     exists sent,
        snd (addVectors self vectors documents tr) = (tr ++ sent)%list /\
        written_rows sent = rows).
Proof.
  intros Hlen.
  assert (Hrows : make_rows vectors documents = Ok (pair_rows vectors documents))
    by (apply make_rows_paired; exact Hlen).
  exists (pair_rows vectors documents).
  split; [exact Hrows |].
  split; [rewrite length_pair_rows; lia |].
  split.
  { intros i v Hv.
    assert (Hi : i < length documents).
    { assert (i < length vectors) by (apply nth_error_Some; congruence). lia. }
    destruct (nth_error documents i) as [d |] eqn:Hd.
    - exists d. split; [reflexivity |]. apply nth_error_pair_rows; assumption.
    - apply nth_error_None in Hd. lia. }
  destruct (addVectors_sent self _ _ _ tr Hrows) as [j [Hj Hrun]].
  split; [rewrite Hrun; reflexivity |].
  split.
  - exists (map (merge_event self) (firstn j (chunks_of (pair_rows vectors documents)))),
           (concat (skipn j (chunks_of (pair_rows vectors documents)))).
    rewrite Hrun. split; [reflexivity |].
    rewrite written_rows_merge_events, <- concat_app, firstn_skipn, concat_chunks_of.
    reflexivity.
  - intros Hacc.
    exists (map (merge_event self) (chunks_of (pair_rows vectors documents))).
    rewrite (addVectors_accepted _ _ _ _ tr Hrows Hacc).
    split; [reflexivity |].
    rewrite written_rows_merge_events. apply concat_chunks_of.
Qed.

Lemma addDocuments_embedded (self : PostgresStore number) (documents : list Document)
    (vectors : list (list number)) (tr : trace number) :
  embed (embeddings self) tr (map pageContent documents) = Ok vectors ->
  addDocuments self documents tr =
  addVectors self vectors documents (tr ++ [EvEmbed (map pageContent documents)])%list.
Proof.
  intros Hemb. unfold addDocuments, bind at 1, embedDocuments. rewrite Hemb. reflexivity.
Qed.

(** The provider is asked once, before anything else. *)
Lemma addDocuments_asks_provider (self : PostgresStore number) (documents : list Document)
    (tr : trace number) :
  exists sent,
    snd (addDocuments self documents tr) =
    (tr ++ EvEmbed (map pageContent documents) :: sent)%list.
Proof.
  unfold addDocuments, bind at 1, embedDocuments.
  destruct (embed (embeddings self) tr (map pageContent documents)) as [vectors | e].
  - destruct (make_rows vectors documents) as [rows | e] eqn:Hrows.
    + destruct (addVectors_sent self _ _ _
                  (tr ++ [EvEmbed (map pageContent documents)])%list Hrows)
        as [j [_ Hrun]].
      rewrite Hrun. cbn [snd]. rewrite <- app_assoc. eexists. reflexivity.
    + rewrite (addVectors_throws _ _ _ _ _ Hrows). exists []. reflexivity.
  - exists []. reflexivity.
Qed.

(** With at least one row, the first chunk is always sent. *)
Lemma addVectors_first_write (self : PostgresStore number) (vectors : list (list number))
    (documents : list Document) (rows : list (Row number)) (tr : trace number) :
  make_rows vectors documents = Ok rows -> rows <> [] ->
  exists rest,
    snd (addVectors self vectors documents tr) =
    (tr ++ merge_event self (slice rows 0 chunkSize) :: rest)%list.
Proof.
  intros Hrows Hne. rewrite (addVectors_rows _ _ _ _ _ Hrows). cbn [snd].
  assert (Hpos : 0 < length rows) by (destruct rows; [congruence | cbn; lia]).
  pose proof (chunk_count_step (length rows) 0 Hpos) as Hstep.
  rewrite Nat.sub_0_r in Hstep. rewrite Hstep. cbn [offsets submit].
  unfold bind, write_chunk, Client_query. cbn [Nat.add].
  destruct (respond (client self) tr merge_query
              [PString (tableName self); PRows (slice rows 0 chunkSize)]) as [res | e].
  - match goal with
    | |- context [submit self rows ?offs ?tr1] =>
        destruct (submit_prefix self rows offs tr1) as [j [_ Htr]]
    end.
    rewrite Htr, <- app_assoc. eexists. reflexivity.
  - exists []. reflexivity.
Qed.

(** C3 (as amended): the number of vectors is not compared with the
    number of documents.  When the provider returns more vectors than there
    are documents, the upsert fails with a TypeError (a property read on
    [undefined]) before any statement is sent.  When it returns fewer, no
    error is raised.  One row is formed per vector, from the vector and the
    document at its index, so the rows are those of the first
    [vectors.length] documents and the documents after them are in no row.
    After the provider call only merge statements are sent; they carry
    these rows from the first on, the first chunk always, and all of them
    when the store accepts the statements. *)
Theorem addDocuments_vector_count_mismatch (self : PostgresStore number)
    (documents : list Document) (vectors : list (list number)) (tr : trace number) :
  embed (embeddings self) tr (map pageContent documents) = Ok vectors ->
  (length documents < length vectors ->
   addDocuments self documents tr =
   (Throw undefined_pageContent, (tr ++ [EvEmbed (map pageContent documents)])%list)) /\
  (length vectors < length documents ->
   exists (rows : list (Row number)) (chunks : list (list (Row number))),
     map row_content rows = map pageContent (firstn (length vectors) documents) /\
     map row_metadata rows = map metadata (firstn (length vectors) documents) /\
     map row_embedding rows = vectors /\
     addDocuments self documents tr =
       (Ok tt,
        (tr ++ EvEmbed (map pageContent documents) :: map (merge_event self) chunks)%list) /\
     (exists rest, rows = (concat chunks ++ rest)%list) /\
     (vectors <> [] -> exists later, chunks = slice rows 0 chunkSize :: later) /\
     (accepts_all (client self) -> concat chunks = rows)).
Proof.
  intros Hemb. rewrite (addDocuments_embedded _ _ _ _ Hemb). split.
  - intros Hmore. apply addVectors_throws. apply make_rows_short. exact Hmore.
  - intros Hfewer.
    assert (Hrows : make_rows vectors documents = Ok (pair_rows vectors documents))
      by (apply make_rows_paired; lia).
    set (rows := pair_rows vectors documents) in *.
    set (tr1 := (tr ++ [EvEmbed (map pageContent documents)])%list).
    destruct (addVectors_sent self _ _ _ tr1 Hrows) as [j [Hj Hrun]].
    exists rows, (firstn j (chunks_of rows)).
    split; [apply pair_rows_content |].
    split; [apply pair_rows_metadata |].
    split; [unfold rows; rewrite pair_rows_embedding; apply firstn_all2; lia |].
    split; [rewrite Hrun; unfold tr1; rewrite <- app_assoc; reflexivity |].
    split; [| split].
    + exists (concat (skipn j (chunks_of rows))).
      rewrite <- concat_app, firstn_skipn, concat_chunks_of. reflexivity.
    + intros Hne.
      assert (Hrne : rows <> []).
      { unfold rows. destruct vectors; [congruence |].
        destruct documents; [cbn in Hfewer; lia |]. cbn. discriminate. }
      destruct (addVectors_first_write self _ _ _ tr1 Hrows Hrne) as [rest Hfirst].
      rewrite Hrun in Hfirst. cbn [snd] in Hfirst. apply app_inv_head in Hfirst.
      destruct (firstn j (chunks_of rows)) as [| chunk later]; [discriminate |].
      cbn [map] in Hfirst. injection Hfirst as Hchunk _.
      exists later. rewrite Hchunk. reflexivity.
    + intros Hacc.
      pose proof (addVectors_accepted self _ _ _ tr1 Hrows Hacc) as Hall.
      rewrite Hrun in Hall. injection Hall as Hall. apply app_inv_head in Hall.
      apply (f_equal (@length _)) in Hall. rewrite !length_map, length_firstn in Hall.
      rewrite firstn_all2 by lia. apply concat_chunks_of.
Qed.

(** C7 (as amended): with no documents nothing is ever written, and
    [addVectors] with no vectors either makes no call and succeeds.
    [addDocuments] still asks the provider, once and for no texts, and makes
    no other call; it succeeds when the provider answers with no vectors. *)
Theorem upsert_empty_documents (self : PostgresStore number) (tr : trace number) :
  addVectors self [] [] tr = (Ok tt, tr) /\
  (forall vectors, snd (addVectors self vectors [] tr) = tr) /\
  snd (addDocuments self [] tr) = (tr ++ [EvEmbed []])%list /\
  (embed (embeddings self) tr [] = Ok [] ->
   addDocuments self [] tr = (Ok tt, (tr ++ [EvEmbed []])%list)).
Proof.
  assert (Hnone : forall tr', addVectors self [] [] tr' = (Ok tt, tr')).
  { intros tr'. rewrite (addVectors_rows self [] [] [] tr' eq_refl). reflexivity. }
  assert (Hany : forall vectors tr', snd (addVectors self vectors [] tr') = tr').
  { intros [| v vectors] tr'.
    - rewrite Hnone. reflexivity.
    - rewrite (addVectors_throws self (v :: vectors) [] undefined_pageContent tr');
        reflexivity. }
  split; [apply Hnone |]. split; [intros vectors; apply Hany |]. split.
  - unfold addDocuments, bind at 1, embedDocuments. cbn [map].
    destruct (embed (embeddings self) tr []) as [vectors | e]; [apply Hany | reflexivity].
  - intros Hemb. rewrite (addDocuments_embedded self [] [] tr Hemb). apply Hnone.
Qed.

(** The empty [catch]: once the rows are formed, no answer of the store
    makes [addVectors] throw. *)
Lemma addVectors_catches_all (self : PostgresStore number) (vectors : list (list number))
    (documents : list Document) (tr : trace number) :
  length vectors <= length documents ->
  fst (addVectors self vectors documents tr) = Ok tt.
Proof.
  intros Hlen.
  rewrite (addVectors_rows self _ _ _ tr (make_rows_paired _ _ Hlen)). reflexivity.
Qed.

(** ** Construction *)

Lemma fromDocuments_instance (docs : list Document) (e : Embeddings number)
    (dbConfig : PostgresLibArgs number) (tr : trace number) :
  fst (fromDocuments docs e dbConfig tr) =
  match fst (addDocuments (constructor e dbConfig) docs tr) with
  | Ok _ => Ok (constructor e dbConfig)
  | Throw err => Throw err
  end.
Proof.
  unfold fromDocuments, bind.
  destruct (addDocuments (constructor e dbConfig) docs tr) as [[[] | err] tr'];
    reflexivity.
Qed.

(** C9: built without a table name, by the constructor or by any of the
    three static helpers, the store object has the table name "documents";
    the merge statements carry it as their first value and the search
    statement reads FROM it. *)
Theorem default_table_name (e : Embeddings number) (dbConfig : PostgresLibArgs number) :
  args_tableName dbConfig = None ->
  tableName (constructor e dbConfig) = "documents" /\
  (forall tr, fromExistingIndex e dbConfig tr = (Ok (constructor e dbConfig), tr)) /\
  (forall docs tr,
      fst (fromDocuments docs e dbConfig tr) =
      match fst (addDocuments (constructor e dbConfig) docs tr) with
      | Ok _ => Ok (constructor e dbConfig)
      | Throw err => Throw err
      end) /\
  (forall texts metadatas tr instance,
      fst (fromTexts texts metadatas e dbConfig tr) = Ok instance ->
      tableName instance = "documents") /\
  (forall vectors documents tr,
      exists chunks,
        snd (addVectors (constructor e dbConfig) vectors documents tr) =
        (tr ++ map (fun chunk => EvQuery merge_query [PString "documents"; PRows chunk])
                   chunks)%list) /\
  (forall query k,
      exists head tail,
        similaryQuery (constructor e dbConfig) query k = head ++ "FROM documents" ++ tail).
Proof.
  intros Hnone.
  assert (Hname : tableName (constructor e dbConfig) = "documents").
  { cbn [constructor tableName]. rewrite Hnone. reflexivity. }
  split; [exact Hname |].
  split; [reflexivity |].
  split; [intros docs tr; apply fromDocuments_instance |].
  split.
  { intros texts metadatas tr instance. unfold fromTexts.
    rewrite fromDocuments_instance.
    destruct (fst (addDocuments (constructor e dbConfig)
                     (fromTexts_docs texts metadatas 0) tr)) as [[] | err];
      [| discriminate].
    intros Hinst. injection Hinst as <-. exact Hname. }
  split.
  - intros vectors documents tr.
    destruct (make_rows vectors documents) as [rows | err] eqn:Hrows.
    + destruct (addVectors_sent (constructor e dbConfig) _ _ _ tr Hrows) as [j [_ Hrun]].
      exists (firstn j (chunks_of rows)). rewrite Hrun. cbn [snd].
      unfold merge_event. rewrite Hname. reflexivity.
    + exists []. rewrite (addVectors_throws _ _ _ _ _ Hrows). cbn.
      rewrite app_nil_r. reflexivity.
  - intros query k.
    exists (template
              [ "";
                "      SELECT *,";
                "      id,";
                "      content,";
                "      metadata,";
                "      1 - (documents.embedding <=> '[" ++ qEmbeddingsStr query
                  ++ "]') as similarity";
                "      " ]),
           (newline ++ "      LIMIT " ++ toString k ++ newline ++ "    ").
    unfold similaryQuery, template. rewrite Hname. cbn [String.concat].
    repeat rewrite append_assoc. reflexivity.
Qed.

End Properties.


(** * Further properties of the adapter *)

Section Upsert.

Context {number : Type} `{JsNumber number}.

Lemma addDocuments_provider_failed (self : PostgresStore number) (documents : list Document)
    (tr : trace number) (err : exn) :
  embed (embeddings self) tr (map pageContent documents) = Throw err ->
  addDocuments self documents tr =
  (Throw err, (tr ++ [EvEmbed (map pageContent documents)])%list).
Proof.
  intros Hemb. unfold addDocuments, bind at 1, embedDocuments. rewrite Hemb. reflexivity.
Qed.

(** X1: [addDocuments] fails in two cases only: the provider failed, and
    its error is passed on as it is; or the provider returned more vectors
    than there are documents, a TypeError.  In both, the provider call is
    the only call made: nothing reaches the store. *)
Theorem addDocuments_failures (self : PostgresStore number) (documents : list Document)
    (tr : trace number) (err : exn) :
  (fst (addDocuments self documents tr) = Throw err <->
   embed (embeddings self) tr (map pageContent documents) = Throw err \/
   exists vectors,
     embed (embeddings self) tr (map pageContent documents) = Ok vectors /\
     length documents < length vectors /\
     err = undefined_pageContent) /\
  (fst (addDocuments self documents tr) = Throw err ->
   snd (addDocuments self documents tr) =
   (tr ++ [EvEmbed (map pageContent documents)])%list).
Proof.
  destruct (embed (embeddings self) tr (map pageContent documents))
    as [vectors | e] eqn:Hemb.
  - rewrite (addDocuments_embedded _ _ _ _ Hemb).
    destruct (le_lt_dec (length vectors) (length documents)) as [Hle | Hgt].
    + rewrite (addVectors_catches_all _ _ _ _ Hle). split.
      * split; [discriminate |].
        intros [Hthrow | (vs & Hvs & Hlen & _)]; [discriminate |].
        injection Hvs as <-. lia.
      * discriminate.
    + rewrite (addVectors_throws _ _ _ _ _ (make_rows_short _ _ Hgt)). cbn [fst snd].
      split; [| reflexivity]. split.
      * intros Herr. right. exists vectors.
        split; [reflexivity |]. split; [exact Hgt | congruence].
      * intros [Hthrow | (vs & _ & _ & ->)]; [discriminate | reflexivity].
  - rewrite (addDocuments_provider_failed _ _ _ _ Hemb). cbn [fst snd].
    split; [| reflexivity]. split.
    + intros Herr. left. congruence.
    + intros [Hthrow | (vs & Hvs & _)]; [congruence | discriminate].
Qed.

(** X2: with a provider that returns one vector per document and a store
    that accepts the statements, [addDocuments] makes one provider call, for
    the page contents, and after it sends merge statements only: chunks of
    200 rows, the last one shorter, that together hold one row per document
    in input order, row i carrying the content and the metadata of document
    i and the i-th vector. *)
Theorem addDocuments_end_to_end (self : PostgresStore number) (documents : list Document)
    (vectors : list (list number)) (tr : trace number) :
  embed (embeddings self) tr (map pageContent documents) = Ok vectors ->
  length vectors = length documents ->
  accepts_all (client self) ->
  exists chunks : list (list (Row number)),
    addDocuments self documents tr =
      (Ok tt,
       (tr ++ EvEmbed (map pageContent documents) :: map (merge_event self) chunks)%list) /\
    map row_content (concat chunks) = map pageContent documents /\
    map row_metadata (concat chunks) = map metadata documents /\
    map row_embedding (concat chunks) = vectors /\
    (forall j chunk, nth_error chunks j = Some chunk ->
                     length chunk = Nat.min 200 (length documents - j * 200)).
Proof.
  intros Hemb Hlen Hacc.
  assert (Hrows : make_rows vectors documents = Ok (pair_rows vectors documents))
    by (apply make_rows_paired; lia).
  assert (Hn : length (pair_rows vectors documents) = length documents)
    by (rewrite length_pair_rows; lia).
  exists (chunks_of (pair_rows vectors documents)).
  rewrite (addDocuments_embedded _ _ _ _ Hemb).
  rewrite (addVectors_accepted _ _ _ _ _ Hrows Hacc), <- app_assoc.
  split; [reflexivity |].
  rewrite concat_chunks_of.
  rewrite pair_rows_content, pair_rows_metadata, pair_rows_embedding.
  rewrite (firstn_all2 (n := length vectors) documents) by lia.
  rewrite (firstn_all2 (n := length documents) vectors) by lia.
  repeat split.
  intros j chunk Hnth. rewrite <- Hn. apply length_chunk. exact Hnth.
Qed.

Lemma chunk_count_index (n j : nat) : j < chunk_count n -> j * chunkSize < n.
Proof.
  unfold chunk_count, chunkSize. cbn [Nat.sub]. intros Hj.
  pose proof (Nat.Div0.mul_div_le (n + 199) 200) as Hdiv.
  nia.
Qed.

Lemma chunks_of_sizes (rows : list (Row number)) :
  Forall (fun chunk => 1 <= length chunk <= 200) (chunks_of rows).
Proof.
  apply Forall_forall. intros chunk Hin.
  destruct (In_nth_error _ _ Hin) as [j Hnth].
  assert (Hj : j < chunk_count (length rows)).
  { rewrite <- length_chunks_of. apply nth_error_Some. congruence. }
  apply chunk_count_index in Hj. unfold chunkSize in Hj.
  rewrite (length_chunk _ _ _ Hnth). lia.
Qed.

(** X3: whatever its input and whatever the store answers, every call
    [addVectors] makes is a merge statement for its own table that carries
    at least one row and at most 200; it never sends an empty statement and
    never calls the provider. *)
Theorem addVectors_statement_sizes (self : PostgresStore number)
    (vectors : list (list number)) (documents : list Document) (tr : trace number) :
  exists chunks,
    snd (addVectors self vectors documents tr) =
      (tr ++ map (fun chunk => EvQuery merge_query [PString (tableName self); PRows chunk])
                 chunks)%list /\
    Forall (fun chunk => 1 <= length chunk <= 200) chunks.
Proof.
  destruct (make_rows vectors documents) as [rows | err] eqn:Hrows.
  - destruct (addVectors_sent self _ _ _ tr Hrows) as [j [_ Hrun]].
    exists (firstn j (chunks_of rows)). rewrite Hrun. split; [reflexivity |].
    apply Forall_forall. intros chunk Hin.
    pose proof (chunks_of_sizes rows) as Hall. rewrite Forall_forall in Hall.
    apply Hall. rewrite <- (firstn_skipn j (chunks_of rows)).
    apply in_or_app. left. exact Hin.
  - exists []. rewrite (addVectors_throws _ _ _ _ _ Hrows). cbn.
    rewrite app_nil_r. split; [reflexivity | constructor].
Qed.

(** The loop up to the first rejected statement: the statements before it
    were accepted, it is the last one sent, and its error leaves the loop. *)
Lemma submit_rejected (self : PostgresStore number) (rows : list (Row number))
    (offs : list nat) (tr : trace number) (j i : nat) (err : exn) :
  nth_error offs j = Some i ->
  (forall m im, m < j -> nth_error offs m = Some im ->
     exists res,
       respond (client self)
         (tr ++ map (fun o => merge_event self (slice rows o (o + chunkSize)))
                    (firstn m offs))%list
         merge_query [PString (tableName self); PRows (slice rows im (im + chunkSize))]
       = Ok res) ->
  respond (client self)
    (tr ++ map (fun o => merge_event self (slice rows o (o + chunkSize))) (firstn j offs))%list
    merge_query [PString (tableName self); PRows (slice rows i (i + chunkSize))]
  = Throw err ->
  submit self rows offs tr =
  (Throw err,
   (tr ++ map (fun o => merge_event self (slice rows o (o + chunkSize)))
              (firstn (S j) offs))%list).
Proof.
  revert tr j. induction offs as [| o offs IH]; intros tr j Hj Hbefore Hrej.
  - destruct j; discriminate.
  - cbn [submit]. unfold bind, write_chunk, Client_query.
    destruct j as [| j].
    + cbn in Hj. injection Hj as ->.
      cbn [firstn map] in Hrej. rewrite app_nil_r in Hrej. rewrite Hrej. reflexivity.
    + destruct (Hbefore 0 o (Nat.lt_0_succ j) eq_refl) as [res Hres].
      cbn [firstn map] in Hres. rewrite app_nil_r in Hres. rewrite Hres.
      rewrite (IH (tr ++ [EvQuery merge_query
                            [PString (tableName self);
                             PRows (slice rows o (o + chunkSize))]])%list j Hj).
      * rewrite <- app_assoc. reflexivity.
      * intros m im Hm Hnth.
        destruct (Hbefore (S m) im (proj1 (Nat.succ_lt_mono m j) Hm) Hnth) as [r Hr].
        exists r. cbn [firstn map] in Hr. unfold merge_event in Hr at 1.
        rewrite <- app_assoc. exact Hr.
      * cbn [firstn map] in Hrej. unfold merge_event in Hrej at 1.
        rewrite <- app_assoc. exact Hrej.
Qed.

Lemma nth_error_chunks_of_offset (rows : list (Row number)) (j : nat)
    (chunk : list (Row number)) :
  nth_error (chunks_of rows) j = Some chunk ->
  exists i,
    nth_error (offsets (chunk_count (length rows)) 0) j = Some i /\
    chunk = slice rows i (i + chunkSize).
Proof.
  unfold chunks_of. rewrite nth_error_map.
  destruct (nth_error (offsets (chunk_count (length rows)) 0) j) as [i |];
    [| discriminate].
  cbn [option_map]. intros Hchunk. exists i. split; [reflexivity | congruence].
Qed.

(** X4: a rejected statement ends the write loop.  When the store accepts
    the first [j] chunks and rejects the next one, exactly these [j + 1]
    statements are sent, in order; the chunks after the rejected one are
    never submitted; and [addVectors] returns normally, the error gone. *)
Theorem addVectors_stops_at_first_rejection (self : PostgresStore number)
    (vectors : list (list number)) (documents : list Document) (tr : trace number)
    (rows : list (Row number)) (j : nat) (chunk : list (Row number)) (err : exn) :
  make_rows vectors documents = Ok rows ->
  nth_error (chunks_of rows) j = Some chunk ->
  (forall m c, m < j -> nth_error (chunks_of rows) m = Some c ->
     exists res,
       respond (client self)
         (tr ++ map (merge_event self) (firstn m (chunks_of rows)))%list
         merge_query [PString (tableName self); PRows c]
       = Ok res) ->
  respond (client self)
    (tr ++ map (merge_event self) (firstn j (chunks_of rows)))%list
    merge_query [PString (tableName self); PRows chunk]
  = Throw err ->
  addVectors self vectors documents tr =
  (Ok tt, (tr ++ map (merge_event self) (firstn (S j) (chunks_of rows)))%list).
Proof.
  intros Hrows Hchunk Hbefore Hrej.
  rewrite (addVectors_rows _ _ _ _ _ Hrows).
  destruct (nth_error_chunks_of_offset _ _ _ Hchunk) as (i & Hi & ->).
  rewrite (submit_rejected self rows _ tr j i err Hi).
  - cbn [snd]. rewrite map_merge_event_chunks. reflexivity.
  - intros m im Hm Hnth. rewrite map_merge_event_chunks.
    apply (Hbefore m); [exact Hm |].
    unfold chunks_of. rewrite nth_error_map, Hnth. reflexivity.
  - rewrite map_merge_event_chunks. exact Hrej.
Qed.

(** X5: the rows are formed before the [try] block is entered.  With more
    vectors than documents [addVectors] throws a TypeError that the empty
    [catch] does not see, and no statement is sent. *)
Theorem addVectors_missing_document (self : PostgresStore number)
    (vectors : list (list number)) (documents : list Document) (tr : trace number) :
  length documents < length vectors ->
  addVectors self vectors documents tr = (Throw undefined_pageContent, tr).
Proof.
  intros Hlen. apply addVectors_throws. apply make_rows_short. exact Hlen.
Qed.

(** X6: nothing is remembered between two calls.  Upserting the same
    vectors and documents twice sends the same statements twice, in the
    same order; telling a known row from a new one is left to the store. *)
Theorem addVectors_twice (self : PostgresStore number)
    (vectors : list (list number)) (documents : list Document) (tr : trace number) :
  length vectors <= length documents ->
  accepts_all (client self) ->
  exists sent,
    addVectors self vectors documents tr = (Ok tt, (tr ++ sent)%list) /\
    bind (addVectors self vectors documents)
         (fun _ => addVectors self vectors documents) tr =
      (Ok tt, (tr ++ sent ++ sent)%list).
Proof.
  intros Hlen Hacc.
  pose proof (make_rows_paired _ _ Hlen) as Hrows.
  exists (map (merge_event self) (chunks_of (pair_rows vectors documents))).
  unfold bind.
  rewrite !(addVectors_accepted _ _ _ _ _ Hrows Hacc), <- app_assoc.
  split; reflexivity.
Qed.

End Upsert.

(** ** The vector text of the search statement *)

Lemma remove_ellipsis_other (c : ascii) (rest : string) :
  c <> "."%char ->
  remove_ellipsis (String c rest) = String c (remove_ellipsis rest).
Proof.
  intros Hc.
  destruct c as [[] [] [] [] [] [] [] []]; try reflexivity;
    exfalso; apply Hc; reflexivity.
Qed.

Lemma remove_ellipsis_dot_other (c : ascii) (rest : string) :
  c <> "."%char ->
  remove_ellipsis (String "." (String c rest)) =
  String "." (String c (remove_ellipsis rest)).
Proof.
  intros Hc.
  destruct c as [[] [] [] [] [] [] [] []]; try reflexivity;
    exfalso; apply Hc; reflexivity.
Qed.

Lemma remove_ellipsis_dot_dot_other (c : ascii) (rest : string) :
  c <> "."%char ->
  remove_ellipsis (String "." (String "." (String c rest))) =
  String "." (String "." (String c (remove_ellipsis rest))).
Proof.
  intros Hc.
  destruct c as [[] [] [] [] [] [] [] []]; try reflexivity;
    exfalso; apply Hc; reflexivity.
Qed.

Lemma contains_ellipsis_cons (c : ascii) (s : string) :
  contains_ellipsis (String c s) ->
  (c = "."%char /\ exists rest, s = String "." (String "." rest)) \/ contains_ellipsis s.
Proof.
  intros [[| c' before] [after Heq]]; cbn in Heq.
  - left. injection Heq as -> ->. split; [reflexivity |]. exists after. reflexivity.
  - right. injection Heq as _ ->. exists before, after. reflexivity.
Qed.

Lemma contains_ellipsis_empty : ~ contains_ellipsis "".
Proof.
  intros [[| c before] [after Heq]]; discriminate.
Qed.

Lemma contains_ellipsis_later (c : ascii) (s : string) :
  contains_ellipsis s -> contains_ellipsis (String c s).
Proof.
  intros (before & after & ->). exists (String c before), after. reflexivity.
Qed.

(** The shapes of a string, by its leading dots. *)
Lemma leading_dots (s : string) :
  s = "" \/
  (exists c rest, c <> "."%char /\ s = String c rest) \/
  s = "." \/
  (exists c rest, c <> "."%char /\ s = String "." (String c rest)) \/
  s = ".." \/
  (exists c rest, c <> "."%char /\ s = String "." (String "." (String c rest))) \/
  (exists rest, s = String "." (String "." (String "." rest))).
Proof.
  destruct s as [| c1 s1]; [tauto |].
  destruct (ascii_dec c1 ".") as [-> | H1]; [| right; left; eauto].
  destruct s1 as [| c2 s2]; [tauto |].
  destruct (ascii_dec c2 ".") as [-> | H2]; [| do 3 right; left; eauto].
  destruct s2 as [| c3 s3]; [tauto |].
  destruct (ascii_dec c3 ".") as [-> | H3]; [| do 5 right; left; eauto].
  do 6 right. eauto.
Qed.

Ltac ellipsis_cases H :=
  repeat match type of H with
         | contains_ellipsis (String _ _) =>
             apply contains_ellipsis_cons in H;
             destruct H as [[? [? ?]] | H]; [congruence |]
         | contains_ellipsis EmptyString => exact (contains_ellipsis_empty H)
         end.

Lemma remove_ellipsis_clean_upto (n : nat) (s : string) :
  String.length s <= n -> ~ contains_ellipsis (remove_ellipsis s).
Proof.
  revert s. induction n as [| n IH]; intros s Hlen Hc.
  - destruct s; [exact (contains_ellipsis_empty Hc) | cbn in Hlen; lia].
  - destruct (leading_dots s)
      as [-> | [(c & rest & Hne & ->) | [-> | [(c & rest & Hne & ->)
          | [-> | [(c & rest & Hne & ->) | (rest & ->)]]]]]].
    + exact (contains_ellipsis_empty Hc).
    + rewrite remove_ellipsis_other in Hc by exact Hne.
      ellipsis_cases Hc. apply (IH rest); [cbn in Hlen; lia | exact Hc].
    + cbn in Hc. ellipsis_cases Hc.
    + rewrite remove_ellipsis_dot_other in Hc by exact Hne.
      ellipsis_cases Hc. apply (IH rest); [cbn in Hlen; lia | exact Hc].
    + cbn in Hc. ellipsis_cases Hc.
    + rewrite remove_ellipsis_dot_dot_other in Hc by exact Hne.
      ellipsis_cases Hc. apply (IH rest); [cbn in Hlen; lia | exact Hc].
    + change (contains_ellipsis (remove_ellipsis rest)) in Hc.
      apply (IH rest); [cbn in Hlen; lia | exact Hc].
Qed.

Lemma remove_ellipsis_same_upto (n : nat) (s : string) :
  String.length s <= n -> ~ contains_ellipsis s -> remove_ellipsis s = s.
Proof.
  revert s. induction n as [| n IH]; intros s Hlen Hc.
  - destruct s; [reflexivity | cbn in Hlen; lia].
  - destruct (leading_dots s)
      as [-> | [(c & rest & Hne & ->) | [-> | [(c & rest & Hne & ->)
          | [-> | [(c & rest & Hne & ->) | (rest & ->)]]]]]].
    + reflexivity.
    + rewrite remove_ellipsis_other by exact Hne. f_equal.
      apply IH; [cbn in Hlen; lia |].
      intros Hrest. apply Hc. apply contains_ellipsis_later. exact Hrest.
    + reflexivity.
    + rewrite remove_ellipsis_dot_other by exact Hne. do 2 f_equal.
      apply IH; [cbn in Hlen; lia |].
      intros Hrest. apply Hc. do 2 apply contains_ellipsis_later. exact Hrest.
    + reflexivity.
    + rewrite remove_ellipsis_dot_dot_other by exact Hne. do 3 f_equal.
      apply IH; [cbn in Hlen; lia |].
      intros Hrest. apply Hc. do 3 apply contains_ellipsis_later. exact Hrest.
    + exfalso. apply Hc. exists "", rest. reflexivity.
Qed.

Section SearchAndConstruction.

Context {number : Type} `{JsNumber number}.

(** X7: the vector text that goes into the search statement never has
    three dots in a row; a comma-joined rendering of the query that has none
    goes in unchanged; and removing the dots a second time changes
    nothing. *)
Theorem qEmbeddingsStr_no_ellipsis (query : list number) :
  ~ contains_ellipsis (qEmbeddingsStr query) /\
  (~ contains_ellipsis (String.concat "," (map toString query)) ->
   qEmbeddingsStr query = String.concat "," (map toString query)) /\
  remove_ellipsis (qEmbeddingsStr query) = qEmbeddingsStr query.
Proof.
  unfold qEmbeddingsStr.
  assert (Hclean : forall s, ~ contains_ellipsis (remove_ellipsis s))
    by (intros s; apply (remove_ellipsis_clean_upto (String.length s)); lia).
  assert (Hsame : forall s, ~ contains_ellipsis s -> remove_ellipsis s = s)
    by (intros s; apply (remove_ellipsis_same_upto (String.length s)); lia).
  split; [apply Hclean |]. split; [apply Hsame |].
  apply Hsame, Hclean.
Qed.

(** X8: the outcomes of a search.  One statement goes to the store,
    with the query vector as its values, whatever [k] is and whatever comes
    back.  The call returns results only when the store answered, and then
    the mapped rows of that answer; it throws only when the store threw, and
    then a plain [Error] whose message is "Error searching for documents: "
    followed by the text of the cause (what a collaborator threw as it
    prints, an error as its name alone when its message is empty and as
    [name: message] otherwise): no other error leaves the call. *)
Theorem search_outcomes (self : PostgresStore number) (query : list number) (k : number)
    (tr : trace number) :
  snd (similaritySearchVectorWithScore self query k tr) =
    (tr ++ [EvQuery (similaryQuery self query k) (map PNumber query)])%list /\
  (forall results,
      fst (similaritySearchVectorWithScore self query k tr) = Ok results ->
      exists res,
        respond (client self) tr (similaryQuery self query k) (map PNumber query) = Ok res /\
        results = map to_result (rows res)) /\
  (forall err,
      fst (similaritySearchVectorWithScore self query k tr) = Throw err ->
      exists cause,
        respond (client self) tr (similaryQuery self query k) (map PNumber query)
          = Throw cause /\
        err = Error ("Error searching for documents: " ++
                     match cause with
                     | Rejected reason => reason
                     | Error EmptyString => "Error"
                     | Error message => "Error: " ++ message
                     | TypeError EmptyString => "TypeError"
                     | TypeError message => "TypeError: " ++ message
                     end)).
Proof.
  split; [apply search_trace |].
  destruct (respond (client self) tr (similaryQuery self query k) (map PNumber query))
    as [res | cause] eqn:Hres.
  - rewrite (search_answered _ _ _ _ _ Hres). cbn [fst]. split.
    + intros results Hok. exists res. split; [reflexivity | congruence].
    + discriminate.
  - rewrite (search_rejected _ _ _ _ _ Hres). cbn [fst]. split.
    + discriminate.
    + intros err Herr. exists cause. split; [reflexivity |].
      injection Herr as <-.
      destruct cause as [[| c message] | [| c message] | reason]; reflexivity.
Qed.

(** X10: the table name given to the constructor.  An empty string counts
    as none and gives "documents"; any other name is kept, and it is the
    first value of every merge statement the store object sends. *)
Theorem constructor_table_name (e : Embeddings number) (args : PostgresLibArgs number) :
  (args_tableName args = Some "" -> tableName (constructor e args) = "documents") /\
  (forall name,
      args_tableName args = Some name -> name <> "" ->
      tableName (constructor e args) = name /\
      forall vectors documents tr,
        exists chunks,
          snd (addVectors (constructor e args) vectors documents tr) =
          (tr ++ map (fun chunk => EvQuery merge_query [PString name; PRows chunk])
                     chunks)%list).
Proof.
  split.
  - intros Hempty. cbn [constructor tableName]. rewrite Hempty. reflexivity.
  - intros name Hname Hne.
    assert (Htable : tableName (constructor e args) = name).
    { cbn [constructor tableName]. rewrite Hname.
      destruct name as [| c name]; [congruence | reflexivity]. }
    split; [exact Htable |].
    intros vectors documents tr.
    destruct (make_rows vectors documents) as [rows | err] eqn:Hrows.
    + destruct (addVectors_sent (constructor e args) _ _ _ tr Hrows) as [j [_ Hrun]].
      exists (firstn j (chunks_of rows)). rewrite Hrun. cbn [snd].
      unfold merge_event. rewrite Htable. reflexivity.
    + exists []. rewrite (addVectors_throws _ _ _ _ _ Hrows). cbn.
      rewrite app_nil_r. reflexivity.
Qed.

(** What [addDocuments] sends: the provider call, then merge statements. *)
Lemma addDocuments_trace (self : PostgresStore number) (documents : list Document)
    (tr : trace number) :
  exists chunks,
    snd (addDocuments self documents tr) =
    (tr ++ EvEmbed (map pageContent documents) :: map (merge_event self) chunks)%list.
Proof.
  destruct (embed (embeddings self) tr (map pageContent documents))
    as [vectors | err] eqn:Hemb.
  - rewrite (addDocuments_embedded _ _ _ _ Hemb).
    destruct (make_rows vectors documents) as [rows | err] eqn:Hrows.
    + destruct (addVectors_sent self _ _ _
                  (tr ++ [EvEmbed (map pageContent documents)])%list Hrows)
        as [j [_ Hrun]].
      exists (firstn j (chunks_of rows)). rewrite Hrun. cbn [snd].
      rewrite <- app_assoc. reflexivity.
    + exists []. rewrite (addVectors_throws _ _ _ _ _ Hrows). reflexivity.
  - exists []. rewrite (addDocuments_provider_failed _ _ _ _ Hemb). reflexivity.
Qed.

Lemma fromDocuments_trace (docs : list Document) (e : Embeddings number)
    (dbConfig : PostgresLibArgs number) (tr : trace number) :
  snd (fromDocuments docs e dbConfig tr) =
  snd (addDocuments (constructor e dbConfig) docs tr).
Proof.
  unfold fromDocuments, bind.
  destruct (addDocuments (constructor e dbConfig) docs tr) as [[[] | err] tr'];
    reflexivity.
Qed.

(** X11: [fromDocuments] is the constructor followed by [addDocuments]
    on the new object.  It asks the provider once, for the page contents,
    and sends nothing but merge statements after that.  It returns the new
    store object whenever the provider returned no more vectors than there
    are documents, whatever the store answered to the writes; a failure of
    the provider is passed on. *)
Theorem fromDocuments_outcome (docs : list Document) (e : Embeddings number)
    (dbConfig : PostgresLibArgs number) (tr : trace number) :
  (exists chunks,
      snd (fromDocuments docs e dbConfig tr) =
      (tr ++ EvEmbed (map pageContent docs)
          :: map (merge_event (constructor e dbConfig)) chunks)%list) /\
  (forall vectors,
      embed e tr (map pageContent docs) = Ok vectors ->
      length vectors <= length docs ->
      fst (fromDocuments docs e dbConfig tr) = Ok (constructor e dbConfig)) /\
  (forall err,
      embed e tr (map pageContent docs) = Throw err ->
      fromDocuments docs e dbConfig tr =
      (Throw err, (tr ++ [EvEmbed (map pageContent docs)])%list)).
Proof.
  split; [rewrite fromDocuments_trace; apply addDocuments_trace |]. split.
  - intros vectors Hemb Hlen. rewrite fromDocuments_instance.
    rewrite (addDocuments_embedded (constructor e dbConfig) docs vectors tr Hemb).
    rewrite (addVectors_catches_all _ _ _ _ Hlen). reflexivity.
  - intros err Hemb. unfold fromDocuments, bind.
    rewrite (addDocuments_provider_failed (constructor e dbConfig) docs tr err Hemb).
    reflexivity.
Qed.

Lemma fromTexts_docs_content (texts : list string) (metadatas : metadatas_arg) (i : nat) :
  map pageContent (fromTexts_docs texts metadatas i) = texts.
Proof.
  revert i. induction texts as [| text texts IH]; intros i; cbn; [| rewrite IH];
    reflexivity.
Qed.

Lemma fromTexts_docs_shared (texts : list string) (m : object) (i : nat) :
  map metadata (fromTexts_docs texts (MetaShared m) i) = map (fun _ => m) texts.
Proof.
  revert i. induction texts as [| text texts IH]; intros i; cbn; [| rewrite IH];
    reflexivity.
Qed.

Lemma fromTexts_docs_array (texts : list string) (ms : list object) (i : nat) :
  length texts + i <= length ms ->
  map metadata (fromTexts_docs texts (MetaArray ms) i) =
  firstn (length texts) (skipn i ms).
Proof.
  revert i. induction texts as [| text texts IH]; intros i Hlen; cbn [fromTexts_docs map].
  - reflexivity.
  - cbn [length] in Hlen.
    destruct (nth_error ms i) as [m |] eqn:Hnth.
    + rewrite IH by lia. rewrite (skipn_nth_error_cons _ _ _ Hnth). reflexivity.
    + apply nth_error_None in Hnth. lia.
Qed.

(** X12: [fromTexts] asks the provider once, for exactly the texts it was
    given, in their order, and sends nothing but merge statements after
    that, whatever the metadata argument is. *)
Theorem fromTexts_asks_for_texts (texts : list string) (metadatas : metadatas_arg)
    (e : Embeddings number) (dbConfig : PostgresLibArgs number) (tr : trace number) :
  exists chunks,
    snd (fromTexts texts metadatas e dbConfig tr) =
    (tr ++ EvEmbed texts :: map (merge_event (constructor e dbConfig)) chunks)%list.
Proof.
  unfold fromTexts. rewrite fromDocuments_trace.
  destruct (addDocuments_trace (constructor e dbConfig)
              (fromTexts_docs texts metadatas 0) tr) as [chunks Htrace].
  exists chunks. rewrite Htrace, fromTexts_docs_content. reflexivity.
Qed.

(** X13: with a provider that returns one vector per text and a store that
    accepts the statements, [fromTexts] returns the new store object after
    writing one row per text, in order: row i carries text i and vector i,
    with the shared metadata object when one object was given, and with the
    i-th metadata when an array with an entry for every text was given. *)
Theorem fromTexts_rows (texts : list string) (metadatas : metadatas_arg)
    (e : Embeddings number) (dbConfig : PostgresLibArgs number)
    (vectors : list (list number)) (tr : trace number) :
  embed e tr texts = Ok vectors ->
  length vectors = length texts ->
  accepts_all (args_client dbConfig) ->
  exists sent,
    fromTexts texts metadatas e dbConfig tr =
      (Ok (constructor e dbConfig), (tr ++ EvEmbed texts :: sent)%list) /\
    map row_content (written_rows sent) = texts /\
    map row_embedding (written_rows sent) = vectors /\
    (forall m, metadatas = MetaShared m ->
               map row_metadata (written_rows sent) = map (fun _ => m) texts) /\
    (forall ms, metadatas = MetaArray ms -> length texts <= length ms ->
                map row_metadata (written_rows sent) = firstn (length texts) ms).
Proof.
  intros Hemb Hlen Hacc.
  set (docs := fromTexts_docs texts metadatas 0).
  assert (Hcontent : map pageContent docs = texts) by apply fromTexts_docs_content.
  assert (Hdocs : length docs = length texts).
  { rewrite <- (length_map pageContent docs), Hcontent. reflexivity. }
  assert (Hrows : make_rows vectors docs = Ok (pair_rows vectors docs))
    by (apply make_rows_paired; lia).
  exists (map (merge_event (constructor e dbConfig)) (chunks_of (pair_rows vectors docs))).
  split.
  { unfold fromTexts, fromDocuments, bind. fold docs.
    rewrite (addDocuments_embedded (constructor e dbConfig) docs vectors tr)
      by (rewrite Hcontent; exact Hemb).
    rewrite (addVectors_accepted (constructor e dbConfig) _ _ _ _ Hrows Hacc).
    rewrite Hcontent, <- app_assoc. reflexivity. }
  rewrite written_rows_merge_events, concat_chunks_of.
  rewrite pair_rows_content, pair_rows_metadata, pair_rows_embedding.
  rewrite (firstn_all2 (n := length vectors) docs) by lia.
  rewrite (firstn_all2 (n := length docs) vectors) by lia.
  split; [exact Hcontent |]. split; [reflexivity |]. split.
  - intros m Hshared. unfold docs. rewrite Hshared. apply fromTexts_docs_shared.
  - intros ms Harray Hms. unfold docs. rewrite Harray.
    rewrite fromTexts_docs_array by lia. reflexivity.
Qed.

End SearchAndConstruction.

(** * The properties at the sample inputs *)

Lemma search_keeps_store_order_witness :
  let store := sample_store (table_client ranked_table) unit_embeddings in
  respond (client store) [] (similaryQuery store [0%Z; 1%Z] 3%Z) (map PNumber [0%Z; 1%Z])
    = Ok {| rows := ranked_table |} /\
  exists results,
    fst (similaritySearchVectorWithScore store [0%Z; 1%Z] 3%Z []) = Ok results /\
    StronglySorted descending results.
Proof.
  intros store. split; [reflexivity |].
  destruct (search_keeps_store_order store [0%Z; 1%Z] 3%Z [] {| rows := ranked_table |}
              eq_refl)
    as (results & Hfst & _ & _ & Hsorted & _).
  exists results. split; [exact Hfst |].
  apply (Hsorted (fun a b => (b <= a)%Z)).
  cbn [rows ranked_table].
  repeat (constructor; cbn [similarity]; try lia).
Defined.

(** C1, as stated, fails: a store that returns its rows as they lie (the
    statement has no ORDER BY) gets them back in that order, lowest
    similarity first and, of the two equal ones, the higher id first. *)
Lemma search_order_counterexample :
  let store := sample_store (table_client heap_table) unit_embeddings in
  exists results,
    fst (similaritySearchVectorWithScore store [0%Z; 1%Z] 3%Z []) = Ok results /\
    results = [ ({| pageContent := "c"; metadata := [] |}, 0%Z);
                ({| pageContent := "b"; metadata := [] |}, 1%Z);
                ({| pageContent := "a"; metadata := [] |}, 1%Z) ] /\
    ~ StronglySorted descending results.
Proof.
  intros store. eexists. split; [reflexivity |]. split; [reflexivity |].
  intros Hs. apply StronglySorted_inv in Hs. destruct Hs as [_ Hall].
  apply Forall_inv in Hall. unfold descending in Hall. cbn in Hall. lia.
Qed.

(** C2: the write is rejected by the store and [addVectors] returns
    normally all the same: the [catch] block is empty. *)
Theorem addVectors_swallows_write_failure :
  let store := sample_store rejecting_client unit_embeddings in
  let row := {| row_content := "0"; row_embedding := [0%Z; 1%Z]; row_metadata := [] |} in
  respond (client store) [] merge_query [PString "documents"; PRows [row]]
    = Throw (Rejected "connection terminated") /\
  addVectors store [[0%Z; 1%Z]] (sample_documents 1) [] =
    (Ok tt, [EvQuery merge_query [PString "documents"; PRows [row]]]).
Proof.
  intros store row. split; reflexivity.
Qed.

Lemma addDocuments_vector_count_mismatch_witness :
  let store := sample_store accepting_client (fixed_embeddings (sample_vectors 5)) in
  let short := sample_store accepting_client (fixed_embeddings (sample_vectors 3)) in
  embed (embeddings store) [] (map pageContent (sample_documents 4)) = Ok (sample_vectors 5) /\
  length (sample_documents 4) < length (sample_vectors 5) /\
  addDocuments store (sample_documents 4) [] =
    (Throw undefined_pageContent, [EvEmbed ["0"; "1"; "2"; "3"]]) /\
  embed (embeddings short) [] (map pageContent (sample_documents 4)) = Ok (sample_vectors 3) /\
  length (sample_vectors 3) < length (sample_documents 4) /\
  exists rows chunks,
    map row_content rows = ["0"; "1"; "2"] /\
    addDocuments short (sample_documents 4) [] =
      (Ok tt, EvEmbed ["0"; "1"; "2"; "3"] :: map (merge_event short) chunks) /\
    concat chunks = rows.
Proof.
  intros store short. split; [reflexivity |]. split; [cbn; lia |]. split.
  - apply (proj1 (addDocuments_vector_count_mismatch store (sample_documents 4)
                    (sample_vectors 5) [] eq_refl)).
    cbn. lia.
  - split; [reflexivity |]. split; [cbn; lia |].
    assert (Hfewer : length (sample_vectors 3) < length (sample_documents 4))
      by (cbn; lia).
    destruct (proj2 (addDocuments_vector_count_mismatch short (sample_documents 4)
                       (sample_vectors 3) [] eq_refl) Hfewer)
      as (rows & chunks & Hcontent & _ & _ & Hrun & _ & _ & Hall).
    exists rows, chunks. split; [exact Hcontent |]. split; [exact Hrun |].
    apply Hall. intros tr text values. eexists. reflexivity.
Defined.

(** C3, as stated, fails: three vectors for four documents raise no error,
    and the three rows are written. *)
Lemma mismatch_undetected_counterexample :
  let store := sample_store accepting_client (fixed_embeddings (sample_vectors 3)) in
  addDocuments store (sample_documents 4) [] =
    (Ok tt,
     [ EvEmbed ["0"; "1"; "2"; "3"];
       EvQuery merge_query
         [ PString "documents";
           PRows [ {| row_content := "0"; row_embedding := [0%Z]; row_metadata := [] |};
                   {| row_content := "1"; row_embedding := [1%Z]; row_metadata := [] |};
                   {| row_content := "2"; row_embedding := [2%Z]; row_metadata := [] |} ] ] ]).
Proof.
  intros store. vm_compute. reflexivity.
Qed.

Lemma search_zero_k_queries_once_witness :
  let store := sample_store accepting_client unit_embeddings in
  toString 0%Z = "0" /\
  snd (similaritySearchVectorWithScore store [0%Z; 1%Z] 0%Z []) =
    [EvQuery (similaryQuery store [0%Z; 1%Z] 0%Z) [PNumber 0%Z; PNumber 1%Z]] /\
  fst (similaritySearchVectorWithScore store [0%Z; 1%Z] 0%Z []) = Ok [].
Proof.
  intros store. split; [reflexivity |].
  destruct (search_zero_k_queries_once store [0%Z; 1%Z] 0%Z [] eq_refl)
    as (Htrace & _ & Hempty).
  split; [exact Htrace |].
  apply (Hempty {| rows := [] |}); reflexivity.
Defined.

(** C4, as stated, fails: with [k = 0] a statement goes to the store. *)
Lemma search_zero_k_counterexample :
  let store := sample_store accepting_client unit_embeddings in
  snd (similaritySearchVectorWithScore store [0%Z; 1%Z] 0%Z []) =
    [EvQuery (similaryQuery store [0%Z; 1%Z] 0%Z) [PNumber 0%Z; PNumber 1%Z]] /\
  snd (similaritySearchVectorWithScore store [0%Z; 1%Z] 0%Z []) <> [].
Proof.
  intros store. split; [reflexivity | discriminate].
Qed.

Lemma accepting_client_accepts : accepts_all accepting_client.
Proof.
  intros tr text values. eexists. reflexivity.
Qed.

Lemma addVectors_chunks_of_200_witness :
  let store := sample_store accepting_client unit_embeddings in
  length (sample_vectors 201) = length (sample_documents 201) /\
  exists chunks,
    length chunks = 2 /\
    addVectors store (sample_vectors 201) (sample_documents 201) [] =
      (Ok tt, map (merge_event store) chunks).
Proof.
  intros store. split; [reflexivity |].
  destruct (addVectors_chunks_of_200 store (sample_vectors 201) (sample_documents 201) []
              eq_refl)
    as (rows & chunks & _ & _ & _ & Hcount & _ & _ & Hall).
  exists chunks. split; [exact Hcount |].
  apply Hall. exact accepting_client_accepts.
Defined.

(** The chunk boundary: 201 pairs go out as 200 + 1, 200 pairs as one
    statement, 401 as 200 + 200 + 1. *)
Example chunk_boundary_201 :
  write_sizes (snd (addVectors (sample_store accepting_client unit_embeddings)
                      (sample_vectors 201) (sample_documents 201) [])) = [200; 1].
Proof. vm_compute. reflexivity. Qed.

Example chunk_boundary_200 :
  write_sizes (snd (addVectors (sample_store accepting_client unit_embeddings)
                      (sample_vectors 200) (sample_documents 200) [])) = [200].
Proof. vm_compute. reflexivity. Qed.

Example chunk_boundary_401 :
  write_sizes (snd (addVectors (sample_store accepting_client unit_embeddings)
                      (sample_vectors 401) (sample_documents 401) [])) = [200; 200; 1].
Proof. vm_compute. reflexivity. Qed.

(** A rejected first chunk ends the loop: the second chunk is never sent. *)
Example rejected_chunk_stops_loop :
  write_sizes (snd (addVectors (sample_store rejecting_client unit_embeddings)
                      (sample_vectors 201) (sample_documents 201) [])) = [200].
Proof. vm_compute. reflexivity. Qed.

Lemma search_failure_surfaces_witness :
  let store := sample_store rejecting_client unit_embeddings in
  respond (client store) [] (similaryQuery store [0%Z; 1%Z] 2%Z) (map PNumber [0%Z; 1%Z])
    = Throw (Rejected "connection terminated") /\
  fst (similaritySearchVectorWithScore store [0%Z; 1%Z] 2%Z []) =
    Throw (Error "Error searching for documents: connection terminated").
Proof.
  intros store. split; [reflexivity |].
  apply (proj1 (search_failure_surfaces store [0%Z; 1%Z] 2%Z []
                  (Rejected "connection terminated") eq_refl)).
Defined.

(** C6, as stated, fails: what the search throws is a plain [Error] that
    holds the text of the cause and not the cause.  A store that fails with
    [new Error("timeout")] and a store that fails with the string
    "Error: timeout" surface as one and the same error. *)
Lemma search_error_counterexample :
  let failed := sample_store (throwing_client (Error "timeout")) unit_embeddings in
  let refused := sample_store (throwing_client (Rejected "Error: timeout")) unit_embeddings in
  Error "timeout" <> Rejected "Error: timeout" /\
  fst (similaritySearchVectorWithScore failed [0%Z; 1%Z] 2%Z []) =
    Throw (Error "Error searching for documents: Error: timeout") /\
  fst (similaritySearchVectorWithScore refused [0%Z; 1%Z] 2%Z []) =
    Throw (Error "Error searching for documents: Error: timeout").
Proof.
  intros failed refused. split; [discriminate |]. split; reflexivity.
Qed.

Lemma upsert_empty_documents_witness :
  let store := sample_store accepting_client unit_embeddings in
  embed (embeddings store) [] [] = Ok [] /\
  addDocuments store [] [] = (Ok tt, [EvEmbed []]).
Proof.
  intros store. split; [reflexivity |].
  destruct (upsert_empty_documents store []) as (_ & _ & _ & Hok).
  apply Hok. reflexivity.
Defined.

(** C7, as stated, fails: [addDocuments] with no documents calls the
    embedding provider. *)
Lemma upsert_empty_counterexample :
  let store := sample_store accepting_client unit_embeddings in
  snd (addDocuments store [] []) = [EvEmbed []] /\
  snd (addDocuments store [] []) <> [].
Proof.
  intros store. split; [reflexivity | discriminate].
Qed.

Lemma search_result_drops_id_witness :
  let store := sample_store (table_client heap_table) unit_embeddings in
  respond (client store) [] (similaryQuery store [0%Z; 1%Z] 3%Z) (map PNumber [0%Z; 1%Z])
    = Ok {| rows := heap_table |} /\
  fst (similaritySearchVectorWithScore store [0%Z; 1%Z] 3%Z []) =
    Ok [ ({| pageContent := "c"; metadata := [] |}, 0%Z);
         ({| pageContent := "b"; metadata := [] |}, 1%Z);
         ({| pageContent := "a"; metadata := [] |}, 1%Z) ].
Proof.
  intros store. split; [reflexivity |].
  apply (proj1 (search_result_drops_id store [0%Z; 1%Z] 3%Z [] {| rows := heap_table |}
                  eq_refl)).
Defined.

Lemma default_table_name_witness :
  let dbConfig := {| args_client := accepting_client; args_tableName := None |} in
  args_tableName dbConfig = None /\
  tableName (constructor unit_embeddings dbConfig) = "documents" /\
  fst (fromTexts ["a"; "b"] (MetaShared []) unit_embeddings dbConfig []) =
    Ok (constructor unit_embeddings dbConfig).
Proof.
  intros dbConfig. split; [reflexivity |].
  destruct (default_table_name unit_embeddings dbConfig eq_refl)
    as (Hname & _ & Hdocs & _).
  split; [exact Hname |].
  unfold fromTexts. rewrite Hdocs. reflexivity.
Defined.

Lemma addVectors_pairs_by_vector_index_witness :
  let store := sample_store accepting_client unit_embeddings in
  length (sample_vectors 3) <= length (sample_documents 4) /\
  exists rows,
    make_rows (sample_vectors 3) (sample_documents 4) = Ok rows /\
    length rows = 3 /\
    fst (addVectors store (sample_vectors 3) (sample_documents 4) []) = Ok tt.
Proof.
  intros store. split; [cbn; lia |].
  assert (Hle : length (sample_vectors 3) <= length (sample_documents 4)) by (cbn; lia).
  destruct (addVectors_pairs_by_vector_index store (sample_vectors 3) (sample_documents 4)
              [] Hle)
    as (rows & Hrows & Hlen & _ & Hok & _).
  exists rows. split; [exact Hrows |]. split; [exact Hlen | exact Hok].
Defined.

(** ** The further properties at the sample inputs *)

Lemma addDocuments_failures_witness :
  let store := sample_store accepting_client failing_embeddings in
  embed (embeddings store) [] (map pageContent (sample_documents 2))
    = Throw (Rejected "rate limited") /\
  fst (addDocuments store (sample_documents 2) []) = Throw (Rejected "rate limited") /\
  snd (addDocuments store (sample_documents 2) []) = [EvEmbed ["0"; "1"]].
Proof.
  intros store. split; [reflexivity |].
  destruct (addDocuments_failures store (sample_documents 2) []
              (Rejected "rate limited")) as [Hiff Htrace].
  assert (Hfail : fst (addDocuments store (sample_documents 2) [])
                  = Throw (Rejected "rate limited"))
    by (apply Hiff; left; reflexivity).
  split; [exact Hfail | exact (Htrace Hfail)].
Defined.

Lemma addDocuments_end_to_end_witness :
  let store := sample_store accepting_client unit_embeddings in
  embed (embeddings store) [] (map pageContent (sample_documents 3))
    = Ok [[0%Z; 1%Z]; [0%Z; 1%Z]; [0%Z; 1%Z]] /\
  exists chunks,
    addDocuments store (sample_documents 3) [] =
      (Ok tt, EvEmbed ["0"; "1"; "2"] :: map (merge_event store) chunks) /\
    map row_content (concat chunks) = ["0"; "1"; "2"].
Proof.
  intros store. split; [reflexivity |].
  destruct (addDocuments_end_to_end store (sample_documents 3)
              [[0%Z; 1%Z]; [0%Z; 1%Z]; [0%Z; 1%Z]] [] eq_refl eq_refl
              accepting_client_accepts)
    as (chunks & Hrun & Hcontent & _).
  exists chunks. split; [exact Hrun | exact Hcontent].
Defined.

Lemma addVectors_stops_at_first_rejection_witness :
  let store := sample_store second_rejected_client unit_embeddings in
  let rows := pair_rows (sample_vectors 401) (sample_documents 401) in
  make_rows (sample_vectors 401) (sample_documents 401) = Ok rows /\
  nth_error (chunks_of rows) 1 = Some (slice rows 200 400) /\
  write_sizes (snd (addVectors store (sample_vectors 401) (sample_documents 401) []))
    = [200; 200].
Proof.
  intros store rows.
  assert (Hrows : make_rows (sample_vectors 401) (sample_documents 401) = Ok rows)
    by (vm_compute; reflexivity).
  assert (Hchunk : nth_error (chunks_of rows) 1 = Some (slice rows 200 400))
    by (vm_compute; reflexivity).
  split; [exact Hrows |]. split; [exact Hchunk |].
  rewrite (addVectors_stops_at_first_rejection store _ _ [] rows 1 (slice rows 200 400)
             (Rejected "statement timeout") Hrows Hchunk).
  - vm_compute. reflexivity.
  - intros m c Hm _. destruct m as [| m]; [| lia]. eexists. reflexivity.
  - vm_compute. reflexivity.
Defined.

Lemma addVectors_missing_document_witness :
  let store := sample_store accepting_client unit_embeddings in
  length (sample_documents 1) < length (sample_vectors 2) /\
  addVectors store (sample_vectors 2) (sample_documents 1) [] =
    (Throw undefined_pageContent, []).
Proof.
  intros store. split; [cbn; lia |].
  apply (addVectors_missing_document store (sample_vectors 2) (sample_documents 1) []).
  cbn. lia.
Defined.

Lemma addVectors_twice_witness :
  let store := sample_store accepting_client unit_embeddings in
  length (sample_vectors 2) <= length (sample_documents 2) /\
  exists sent,
    addVectors store (sample_vectors 2) (sample_documents 2) [] = (Ok tt, sent) /\
    bind (addVectors store (sample_vectors 2) (sample_documents 2))
         (fun _ => addVectors store (sample_vectors 2) (sample_documents 2)) [] =
      (Ok tt, (sent ++ sent)%list).
Proof.
  intros store. split; [cbn; lia |].
  assert (Hle : length (sample_vectors 2) <= length (sample_documents 2)) by (cbn; lia).
  destruct (addVectors_twice store (sample_vectors 2) (sample_documents 2) [] Hle
              accepting_client_accepts)
    as (sent & Hone & Htwo).
  exists sent. split; [exact Hone | exact Htwo].
Defined.

Lemma qEmbeddingsStr_no_ellipsis_witness :
  ~ contains_ellipsis (String.concat "," (map toString [1%Z; 2%Z])) /\
  qEmbeddingsStr [1%Z; 2%Z] = "1,2".
Proof.
  assert (Hfree : ~ contains_ellipsis (String.concat "," (map toString [1%Z; 2%Z]))).
  { intros Hc. change (contains_ellipsis "1,2") in Hc. ellipsis_cases Hc. }
  split; [exact Hfree |].
  destruct (qEmbeddingsStr_no_ellipsis [1%Z; 2%Z]) as (_ & Hsame & _).
  rewrite (Hsame Hfree). reflexivity.
Defined.

Lemma search_outcomes_witness :
  let store := sample_store rejecting_client unit_embeddings in
  fst (similaritySearchVectorWithScore store [0%Z; 1%Z] 2%Z [])
    = Throw (Error "Error searching for documents: connection terminated") /\
  exists cause,
    respond (client store) [] (similaryQuery store [0%Z; 1%Z] 2%Z) (map PNumber [0%Z; 1%Z])
      = Throw cause.
Proof.
  intros store. split; [reflexivity |].
  destruct (search_outcomes store [0%Z; 1%Z] 2%Z []) as (_ & _ & Hthrow).
  destruct (Hthrow (Error "Error searching for documents: connection terminated")
              eq_refl) as (cause & Hcause & _).
  exists cause. exact Hcause.
Defined.

Lemma constructor_table_name_witness :
  args_tableName (named_args "items") = Some "items" /\
  "items" <> "" /\
  tableName (constructor unit_embeddings (named_args "items")) = "items" /\
  tableName (constructor unit_embeddings (named_args "")) = "documents".
Proof.
  split; [reflexivity |]. split; [discriminate |].
  split.
  - destruct (constructor_table_name unit_embeddings (named_args "items")) as [_ Hkept].
    apply (Hkept "items"); [reflexivity | discriminate].
  - destruct (constructor_table_name unit_embeddings (named_args "")) as [Hempty _].
    apply Hempty. reflexivity.
Defined.

Lemma fromDocuments_outcome_witness :
  let dbConfig := {| args_client := rejecting_client; args_tableName := None |} in
  embed unit_embeddings [] (map pageContent (sample_documents 2))
    = Ok [[0%Z; 1%Z]; [0%Z; 1%Z]] /\
  fst (fromDocuments (sample_documents 2) unit_embeddings dbConfig [])
    = Ok (constructor unit_embeddings dbConfig).
Proof.
  intros dbConfig. split; [reflexivity |].
  destruct (fromDocuments_outcome (sample_documents 2) unit_embeddings dbConfig [])
    as (_ & Hok & _).
  apply (Hok [[0%Z; 1%Z]; [0%Z; 1%Z]]); [reflexivity | cbn; lia].
Defined.

Lemma fromTexts_rows_witness :
  let dbConfig := {| args_client := accepting_client; args_tableName := None |} in
  let metas := [[("page", "1")]; [("page", "2")]] in
  embed unit_embeddings [] ["a"; "b"] = Ok [[0%Z; 1%Z]; [0%Z; 1%Z]] /\
  exists sent,
    fromTexts ["a"; "b"] (MetaArray metas) unit_embeddings dbConfig [] =
      (Ok (constructor unit_embeddings dbConfig), EvEmbed ["a"; "b"] :: sent) /\
    map row_content (written_rows sent) = ["a"; "b"] /\
    map row_metadata (written_rows sent) = metas.
Proof.
  intros dbConfig metas. split; [reflexivity |].
  destruct (fromTexts_rows ["a"; "b"] (MetaArray metas) unit_embeddings dbConfig
              [[0%Z; 1%Z]; [0%Z; 1%Z]] [] eq_refl eq_refl accepting_client_accepts)
    as (sent & Hrun & Hcontent & _ & _ & Harray).
  exists sent. split; [exact Hrun |]. split; [exact Hcontent |].
  apply (Harray metas); [reflexivity | cbn; lia].
Defined.
